(** * SecureX number-plate recognition: the decision and state-management core

    A shallow embedding of [main.py] and [config.py]: result fusion and plate
    validation ([SmartOCR]), the duplicate window ([DuplicateManager]), the
    rolling frame-time buffer ([PerformanceMonitor]), the persistence gateway
    ([DataManager]) and the two save paths of the frame loop ([main]).

    Python floats are IEEE binary64 numbers, embedded as Rocq's primitive
    floats; Python ints are [Z]; lengths and capacities are [nat]; [str] is
    [string], restricted to ASCII text.  The camera, the cascade detector, the
    OCR engine, the clock and the SQLite engine are collaborators: what they
    return (or that they raise) is an input of the model. *)

From Stdlib Require Import String Ascii ZArith List Bool Arith Lia Floats Uint63.
Import ListNotations.

Set Warnings "-inexact-float".

(** * Part I: the program *)

(** ** Python values and builtins *)

Module Py.

(** A call either returns a value or raises an exception. *)
Inductive outcome (A : Type) : Type :=
| Returns (a : A)
| Raises.
Arguments Returns {A} a.
Arguments Raises {A}.

(** [float(n)] for a Python int [n] with [|n| < 2^63]: the nearest binary64
    value, [n] itself up to [2^53]. *)
Definition float_of_int (n : Z) : float :=
  if (n <? 0)%Z
  then PrimFloat.opp (PrimFloat.of_uint63 (Uint63.of_Z (- n)))
  else PrimFloat.of_uint63 (Uint63.of_Z n).

(** A Python number as this program produces them: an int or a float. *)
Inductive number : Type :=
| PyInt (n : Z)
| PyFloat (x : float).

Definition to_float (v : number) : float :=
  match v with
  | PyInt n => float_of_int n
  | PyFloat x => x
  end.

(** [a > b] and [a >= b] on floats. *)
Definition gt (a b : float) : bool := PrimFloat.ltb b a.
Definition ge (a b : float) : bool := PrimFloat.leb b a.

(** [a] is a number: it is not NaN. *)
Definition is_number (a : float) : bool := negb (PrimFloat.is_nan a).

(** [a / b] on floats: a zero divisor raises ZeroDivisionError. *)
Definition truediv (a b : float) : outcome float :=
  if PrimFloat.eqb b 0 then Raises else Returns (PrimFloat.div a b).

(** [a / b] for two ints (true division), [b <> 0]. *)
Definition int_truediv (a b : Z) : float :=
  PrimFloat.div (float_of_int a) (float_of_int b).

(** [v / n] for a number [v] and an int [n], [n <> 0]. *)
Definition div_int (v : number) (n : Z) : float :=
  PrimFloat.div (to_float v) (float_of_int n).

(** [sum(l)] for a list of ints. *)
Definition sum_ints (l : list Z) : Z := fold_left Z.add l 0%Z.

(** [sum(l)] for floats: the running total starts from the int [0] and adds
    left to right. *)
Definition sum_floats (l : list float) : float :=
  fold_left PrimFloat.add l (float_of_int 0).

(** [sum(l)] as CPython 3.12 and later compute it: Neumaier's compensation
    term is accumulated beside the total and added at the end when it is
    non-zero and finite. *)
Definition sum_step (acc : float * float) (x : float) : float * float :=
  let '(total, c) := acc in
  let t := PrimFloat.add total x in
  if PrimFloat.leb (PrimFloat.abs x) (PrimFloat.abs total)
  then (t, PrimFloat.add c (PrimFloat.add (PrimFloat.sub total t) x))
  else (t, PrimFloat.add c (PrimFloat.add (PrimFloat.sub x t) total)).

Definition sum_floats_compensated (l : list float) : float :=
  let '(total, c) := fold_left sum_step l (float_of_int 0, float_of_int 0) in
  if PrimFloat.eqb c (float_of_int 0) || PrimFloat.is_nan c || PrimFloat.is_infinity c
  then total
  else PrimFloat.add total c.

(** [max(l, key=key)]: the first item is the running maximum, a later item
    replaces it only when its key is strictly greater. *)
Definition max_by {A : Type} (key : A -> float) (first : A) (rest : list A) : A :=
  fold_left (fun best x => if gt (key x) (key best) then x else best) rest first.

(** *** Statements

    A statement runs on a mutable state [S]; it returns or raises, and in both
    cases leaves a state behind. *)

Definition stmt (S A : Type) : Type := S -> outcome A * S.

Definition ret {S A : Type} (a : A) : stmt S A := fun st => (Returns a, st).

Definition bind {S A B : Type} (c : stmt S A) (f : A -> stmt S B) : stmt S B :=
  fun st =>
    match c st with
    | (Returns a, st') => f a st'
    | (Raises, st') => (Raises, st')
    end.

(** A call that does not touch the state. *)
Definition call {S A : Type} (o : outcome A) : stmt S A := fun st => (o, st).

(** [try: body except: handler] *)
Definition try_except {S A : Type} (body handler : stmt S A) : stmt S A :=
  fun st =>
    match body st with
    | (Returns a, st') => (Returns a, st')
    | (Raises, st') => handler st'
    end.

Fixpoint for_each {S A : Type} (l : list A) (body : A -> stmt S unit)
    : stmt S unit :=
  match l with
  | [] => ret tt
  | x :: rest => bind (body x) (fun _ => for_each rest body)
  end.

(** *** Strings (ASCII text) *)

Definition code (c : ascii) : nat := nat_of_ascii c.

(** [c.isspace()]: tab, line feed, vertical tab, form feed, carriage return,
    the four separators 0x1c..0x1f and the space. *)
Definition isspace (c : ascii) : bool :=
  let n := code c in
  ((9 <=? n) && (n <=? 13)) || ((28 <=? n) && (n <=? 32)).

Definition is_upper_letter (c : ascii) : bool :=
  let n := code c in (65 <=? n) && (n <=? 90).

Definition is_lower_letter (c : ascii) : bool :=
  let n := code c in (97 <=? n) && (n <=? 122).

Definition is_digit (c : ascii) : bool :=
  let n := code c in (48 <=? n) && (n <=? 57).

Definition upper_char (c : ascii) : ascii :=
  if is_lower_letter c then ascii_of_nat (code c - 32) else c.

Definition is_empty (s : string) : bool :=
  match s with
  | EmptyString => true
  | String _ _ => false
  end.

Fixpoint lstrip (s : string) : string :=
  match s with
  | EmptyString => EmptyString
  | String c rest => if isspace c then lstrip rest else s
  end.

Fixpoint rstrip (s : string) : string :=
  match s with
  | EmptyString => EmptyString
  | String c rest =>
      let rest' := rstrip rest in
      if isspace c && is_empty rest' then EmptyString else String c rest'
  end.

(** [s.strip()] *)
Definition strip (s : string) : string := rstrip (lstrip s).

(** [s.replace(" ", "")] *)
Fixpoint remove_spaces (s : string) : string :=
  match s with
  | EmptyString => EmptyString
  | String c rest =>
      if Ascii.eqb c " "%char then remove_spaces rest
      else String c (remove_spaces rest)
  end.

(** [s.upper()] *)
Fixpoint upper (s : string) : string :=
  match s with
  | EmptyString => EmptyString
  | String c rest => String (upper_char c) (upper rest)
  end.

(** *** The fragment of [re] that the program uses *)

Inductive regex : Type :=
| Caret                          (* ^ *)
| Dollar                         (* $ *)
| Class (p : ascii -> bool)      (* [...] *)
| Plus (r : regex)               (* r+ , greedy *)
| Seq (r1 r2 : regex).

Definition newline : ascii := ascii_of_nat 10.

(** One or more greedy repetitions of [step], at most [n] of them: after a
    repetition that consumed something, more repetitions are tried before
    the continuation [k]. *)
Fixpoint iterate (step : nat -> string -> (nat -> string -> bool) -> bool)
    (k : nat -> string -> bool) (n : nat) (pos : nat) (s : string) : bool :=
  match n with
  | O => false
  | S n' =>
      step pos s
        (fun pos' s' =>
           if pos' =? pos then k pos' s'
           else if iterate step k n' pos' s' then true else k pos' s')
  end.

(** Backtracking matcher.  [pos] is the offset of [s] in the subject and [k]
    the continuation that matches what follows.  [$] (without MULTILINE)
    matches at the end of the subject and also just before a line feed that
    is the subject's last character. *)
Fixpoint match_re (fuel : nat) (r : regex) (pos : nat) (s : string)
    (k : nat -> string -> bool) {struct r} : bool :=
  match r with
  | Caret => if pos =? 0 then k pos s else false
  | Dollar =>
      match s with
      | EmptyString => k pos s
      | String c EmptyString => if Ascii.eqb c newline then k pos s else false
      | String _ (String _ _) => false
      end
  | Class p =>
      match s with
      | EmptyString => false
      | String c rest => if p c then k (S pos) rest else false
      end
  | Seq r1 r2 =>
      match_re fuel r1 pos s (fun pos' s' => match_re fuel r2 pos' s' k)
  | Plus r1 => iterate (match_re fuel r1) k fuel pos s
  end.

(** [bool(re.match(r, s))]: the pattern is tried at offset 0 only; the match
    need not reach the end of [s]. *)
Definition re_match (r : regex) (s : string) : bool :=
  match_re (S (String.length s)) r 0 s (fun _ _ => true).

End Py.

Export Py.

Notation "x <- c ;; k" := (bind c (fun x => k))
  (at level 61, c at next level, right associativity).
Notation "c ;;; k" := (bind c (fun _ => k))
  (at level 61, right associativity).

(** ** config.py *)

(** The settings that the embedded code reads. *)
Record Config : Type := {
  MIN_PLATE_AREA : Z;
  MAX_PLATE_AREA : Z;
  AUTO_SAVE_THRESHOLD : float;
  MIN_PLATE_LENGTH : nat;
  MAX_PLATE_LENGTH : nat;
  DUPLICATE_TIME_WINDOW : Z;
  PERFORMANCE_BUFFER_SIZE : nat
}.

(** The values [config.py] ships with. *)
Definition config : Config := {|
  MIN_PLATE_AREA := 3000;
  MAX_PLATE_AREA := 50000;
  AUTO_SAVE_THRESHOLD := 0.8%float;
  MIN_PLATE_LENGTH := 4;
  MAX_PLATE_LENGTH := 10;
  DUPLICATE_TIME_WINDOW := 5;
  PERFORMANCE_BUFFER_SIZE := 30
|}.

(** ** SmartOCR *)

Module SmartOCR.

(** The preprocessing variants, in the order of the [methods] list. *)
Inductive method : Type := Adaptive | Otsu | CLAHE.

Definition methods : list method := [Adaptive; Otsu; CLAHE].

Definition method_name (m : method) : string :=
  match m with
  | Adaptive => "Adaptive"
  | Otsu => "Otsu"
  | CLAHE => "CLAHE"
  end.

(** The OCR configurations, in the order of the inner loop. *)
Inductive psm : Type := PSM7 | PSM8.

Definition psm_configs : list psm := [PSM7; PSM8].

(** One entry of [data['conf']]: something [int(...)] converts, or not. *)
Inductive conf_field : Type :=
| Conf (n : Z)
| Malformed.

Definition py_int (c : conf_field) : outcome Z :=
  match c with
  | Conf n => Returns n
  | Malformed => Raises
  end.

(** [data['text'][i]] with [data['conf'][i]]. *)
Definition token : Type := (string * conf_field)%type.

(** What the collaborators do for one candidate region: each preprocessing
    function returns an image or raises, and [image_to_data] on the image of a
    variant under a configuration returns the tokens or raises. *)
Record region_ocr : Type := {
  preprocess : method -> outcome unit;
  image_to_data : method -> psm -> outcome (list token)
}.

(** An entry of [results]: (text, confidence, method name). *)
Definition reading : Type := (string * float * string)%type.

Definition reading_conf (r : reading) : float := snd (fst r).

(** What [extract_text] returns. *)
Definition detection : Type := (string * number * string)%type.

(** The "no result" triple. *)
Definition no_result : detection := (EmptyString, PyInt 0, "None"%string).

(** *** The [results] list

    The loops are statements over the list: an exception leaves it as it was
    when it was raised, since [append] mutates the list in place. *)

Definition results_append (r : reading) : stmt (list reading) unit :=
  fun results => (Returns tt, results ++ [r]).

(** The token loop: words whose confidence is positive are concatenated and
    their confidences collected. *)
Fixpoint scan_tokens (data : list token) (text : string) (confidences : list Z)
    : outcome (string * list Z) :=
  match data with
  | [] => Returns (text, confidences)
  | (word, c) :: rest =>
      match py_int c with
      | Raises => Raises
      | Returns n =>
          if (0 <? n)%Z
          then scan_tokens rest (text ++ word)%string (confidences ++ [n])
          else scan_tokens rest text confidences
      end
  end.

(** [text.strip().replace(" ", "").upper()] *)
Definition clean (text : string) : string := upper (remove_spaces (strip text)).

(** [text and len(text) >= config.MIN_PLATE_LENGTH] *)
Definition long_enough (cfg : Config) (text : string) : bool :=
  negb (is_empty text) && (MIN_PLATE_LENGTH cfg <=? String.length text).

(** [sum(confidences) / len(confidences) if confidences else 0] *)
Definition average (confidences : list Z) : number :=
  match confidences with
  | [] => PyInt 0
  | _ :: _ => PyFloat (int_truediv (sum_ints confidences)
                                   (Z.of_nat (List.length confidences)))
  end.

(** What one OCR configuration contributes once [image_to_data] returned:
    nothing, or one reading. *)
Definition read_data (cfg : Config) (name : string) (data : list token)
    : outcome (option reading) :=
  match scan_tokens data EmptyString [] with
  | Raises => Raises
  | Returns (text, confidences) =>
      let text := clean text in
      if long_enough cfg text
      then Returns (Some (text, div_int (average confidences) 100, name))
      else Returns None
  end.

Section ExtractText.

Variable cfg : Config.
Variable ocr : region_ocr.

(** The body of the inner loop, for one configuration of one variant. *)
Definition psm_body (m : method) (c : psm)
    : stmt (list reading) unit :=
  data <- call (image_to_data ocr m c) ;;
  found <- call (read_data cfg (method_name m) data) ;;
  match found with
  | Some r => results_append r
  | None => ret tt
  end.

(** The body of the outer [try]. *)
Definition method_body (m : method) : stmt (list reading) unit :=
  call (preprocess ocr m) ;;;
  for_each psm_configs (psm_body m).

(** [try: <method_body> except Exception: continue] *)
Definition try_method (m : method) : stmt (list reading) unit :=
  try_except (method_body m) (ret tt).

(** The outer loop, run on the empty [results]. *)
Definition collect : outcome unit * list reading :=
  for_each methods try_method [].

(** The last two statements, on the collected [results]. *)
Definition fuse (results : list reading) : detection :=
  match results with
  | [] => no_result
  | first :: rest =>
      let '(text, conf, name) := max_by reading_conf first rest in
      (text, PyFloat conf, name)
  end.

Definition extract_text : outcome detection :=
  match collect with
  | (Raises, _) => Raises
  | (Returns _, results) => Returns (fuse results)
  end.

End ExtractText.

(** *** validate_plate *)

Definition plate_char (c : ascii) : bool := is_upper_letter c || is_digit c.

(** [r'^[A-Z0-9]+$'] *)
Definition plate_pattern : regex :=
  Seq Caret (Seq (Plus (Class plate_char)) Dollar).

Definition validate_plate (cfg : Config) (text : string) : bool :=
  if (String.length text <? MIN_PLATE_LENGTH cfg)
     || (MAX_PLATE_LENGTH cfg <? String.length text)
  then false
  else re_match plate_pattern text.

End SmartOCR.

(** ** DuplicateManager *)

Module DuplicateManager.

(** An entry of the [detected] deque: (plate text, [time.time()] when it was
    recorded).  The head of the list is the left end of the deque. *)
Definition entry : Type := (string * float)%type.

(** [__init__] *)
Definition init : list entry := [].

(** The [while] loop: entries leave from the left for as long as the leftmost
    one is older than the window. *)
Fixpoint evict (cfg : Config) (current_time : float) (detected : list entry)
    : list entry :=
  match detected with
  | [] => []
  | (_, seen) :: rest =>
      if gt (PrimFloat.sub current_time seen)
            (float_of_int (DUPLICATE_TIME_WINDOW cfg))
      then evict cfg current_time rest
      else detected
  end.

(** The [for] loop: is some remaining entry's text equal to [plate_text]? *)
Fixpoint seen_recently (plate_text : string) (detected : list entry) : bool :=
  match detected with
  | [] => false
  | (plate, _) :: rest =>
      if String.eqb plate plate_text then true
      else seen_recently plate_text rest
  end.

(** [is_duplicate(plate_text)] at clock reading [current_time]: the answer and
    the deque afterwards. *)
Definition is_duplicate (cfg : Config) (current_time : float)
    (plate_text : string) (detected : list entry) : bool * list entry :=
  let detected := evict cfg current_time detected in
  if seen_recently plate_text detected
  then (true, detected)
  else (false, detected ++ [(plate_text, current_time)]).

End DuplicateManager.

(** ** PerformanceMonitor *)

Module PerformanceMonitor.

(** [collections.deque] with a [maxlen]; the head of [items] is the left end. *)
Record deque (A : Type) : Type := {
  maxlen : nat;
  items : list A
}.
Arguments maxlen {A} d.
Arguments items {A} d.

(** [d.append(x)]: the item goes to the right end, and the leftmost item is
    dropped when the deque got longer than [maxlen]. *)
Definition deque_append {A : Type} (d : deque A) (x : A) : deque A :=
  let l := items d ++ [x] in
  {| maxlen := maxlen d;
     items := if maxlen d <? List.length l then tl l else l |}.

(** [__init__] *)
Definition init (cfg : Config) : deque float :=
  {| maxlen := PERFORMANCE_BUFFER_SIZE cfg; items := [] |}.

Definition add_frame_time (frame_times : deque float) (duration : float)
    : deque float :=
  deque_append frame_times duration.

(** [1.0 / (sum(...) / len(...))]: the inner division is by a length that is
    not zero here; the outer one raises when the quotient is zero. *)
Definition get_fps (frame_times : deque float) : outcome number :=
  match items frame_times with
  | [] => Returns (PyInt 0)
  | _ :: _ =>
      match truediv 1
              (PrimFloat.div
                 (sum_floats (items frame_times))
                 (float_of_int (Z.of_nat (List.length (items frame_times)))))
      with
      | Returns fps => Returns (PyFloat fps)
      | Raises => Raises
      end
  end.


End PerformanceMonitor.

(** ** DataManager *)

Module DataManager.

(** A row of the [plates] table, in the column order of the [INSERT]; it is
    also the [plate_data] tuple handed to [save_detection]. *)
Record plate_row : Type := {
  timestamp : string;
  plate_number : string;
  confidence : number;
  image_path : string;
  location : string;
  processing_time : number;
  detection_method : string
}.

(** A line of the export file.  [Confidence] is the text [f"{c:.2%}"], kept
    as the number it formats. *)
Inductive csv_line : Type :=
| Header
| Row (Timestamp Plate_Number : string) (Confidence : number) (Image_Path : string).

(** What is on disk: the committed rows of [plates] and the export file, if it
    exists. *)
Record storage : Type := {
  plates : list plate_row;
  csv_file : option (list csv_line)
}.

(** The operations on the two sinks. *)
Inductive op : Type :=
| DbConnect
| DbInsert
| DbCommit
| DbClose
| DbSelect (n : nat)
| CsvWrite.

(** Which operations raise during one call. *)
Definition faults : Type := op -> bool.

Definition no_faults : faults := fun _ => false.

(** The SQL functions the queries use, as the store's engine computes them:
    [DATE(text)] (NULL when the text is no date) and [AVG] over a column
    (NULL over no row). *)
Record engine : Type := {
  sql_date : string -> option string;
  sql_avg : list number -> option float
}.

Definition attempt (fails : faults) (o : op) : stmt storage unit :=
  call (if fails o then Raises else Returns tt).

(** [conn.commit()]: the pending insert becomes durable. *)
Definition commit (pending : list plate_row) : stmt storage unit :=
  fun st => (Returns tt, {| plates := plates st ++ pending; csv_file := csv_file st |}).

(** [df.to_csv(...)]: with a header into a new file, without one at the end
    of an existing file. *)
Definition to_csv (line : csv_line) : stmt storage unit :=
  fun st =>
    (Returns tt,
     {| plates := plates st;
        csv_file := match csv_file st with
                    | Some lines => Some (lines ++ [line])
                    | None => Some [Header; line]
                    end |}).

Definition save_detection (fails : faults) (plate_data : plate_row)
    : stmt storage bool :=
  try_except
    (attempt fails DbConnect ;;;
     attempt fails DbInsert ;;;
     attempt fails DbCommit ;;;
     commit [plate_data] ;;;
     attempt fails DbClose ;;;
     attempt fails CsvWrite ;;;
     to_csv (Row (timestamp plate_data) (plate_number plate_data)
                 (confidence plate_data) (image_path plate_data)) ;;;
     ret true)
    (ret false).

Section Statistics.

Variable db : engine.

(** [WHERE DATE(timestamp) = ?] with today's date. *)
Definition dated (today : string) (r : plate_row) : bool :=
  match sql_date db (timestamp r) with
  | Some d => String.eqb d today
  | None => false
  end.

Definition select_today (today : string) : stmt storage (list plate_row) :=
  fun st => (Returns (filter (dated today) (plates st)), st).

(** [COUNT( * )] *)
Definition count_rows (rows : list plate_row) : Z := Z.of_nat (List.length rows).

(** [COUNT(DISTINCT plate_number)] *)
Definition count_distinct (rows : list plate_row) : Z :=
  Z.of_nat (List.length (nodup string_dec (map plate_number rows))).

(** [x or 0] on the fetched average: NULL and a zero are falsy. *)
Definition or_zero (avg : option float) : number :=
  match avg with
  | None => PyInt 0
  | Some x => if PrimFloat.eqb x 0 then PyInt 0 else PyFloat x
  end.

Definition statistics : Type := (number * number * number)%type.

Definition get_statistics (fails : faults) (today : string)
    : stmt storage statistics :=
  try_except
    (attempt fails DbConnect ;;;
     attempt fails (DbSelect 1) ;;;
     rows1 <- select_today today ;;
     let total := count_rows rows1 in
     attempt fails (DbSelect 2) ;;;
     rows2 <- select_today today ;;
     let unique := count_distinct rows2 in
     attempt fails (DbSelect 3) ;;;
     rows3 <- select_today today ;;
     let avg_conf := or_zero (sql_avg db (map confidence rows3)) in
     attempt fails DbClose ;;;
     ret (PyInt total, PyInt unique, avg_conf))
    (ret (PyInt 0, PyInt 0, PyInt 0)).

End Statistics.

End DataManager.

(** ** main: the two paths that persist a detection *)

Module Main.

Import SmartOCR DuplicateManager DataManager.

(** A rectangle returned by the cascade, with what OCR does on its pixels. *)
Record plate : Type := {
  x : Z;
  y : Z;
  w : Z;
  h : Z;
  ocr : region_ocr
}.

(** What the clock and the sinks do at one save attempt: [time.time()],
    [datetime.now()] under the two formats used, and the operations that
    fail. *)
Record moment : Type := {
  clock : float;
  stamp : string;          (* '%Y-%m-%d %H:%M:%S' *)
  stamp_compact : string;  (* '%Y%m%d_%H%M%S' *)
  fails : faults
}.

(** The components the loop holds across frames.  Drawing, printing and
    [cv2.imwrite] act on the screen and on image files, which are not part of
    this state. *)
Record app : Type := {
  auto_save : bool;
  show_dashboard : bool;
  duplicate_mgr : list entry;
  disk : storage
}.

Definition with_detected (a : app) (detected : list entry) : app :=
  {| auto_save := auto_save a; show_dashboard := show_dashboard a;
     duplicate_mgr := detected; disk := disk a |}.

Definition with_disk (a : app) (d : storage) : app :=
  {| auto_save := auto_save a; show_dashboard := show_dashboard a;
     duplicate_mgr := duplicate_mgr a; disk := d |}.

(** [os.path.join(config.SAVED_PLATES_DIR, f"plate_{...}.jpg")], relative to
    the installation directory. *)
Definition img_path (now : moment) : string :=
  ("saved_plates/plate_" ++ stamp_compact now ++ ".jpg")%string.

Definition plate_data (now : moment) (origin : string) (d : detection)
    : plate_row :=
  let '(plate_text, conf, method) := d in
  {| timestamp := stamp now;
     plate_number := plate_text;
     confidence := conf;
     image_path := img_path now;
     location := origin;
     processing_time := PyInt 0;
     detection_method := method |}.

(** The current value of the [auto_save] flag. *)
Definition get_auto_save : stmt app bool :=
  fun a => (Returns (auto_save a), a).

(** [duplicate_mgr.is_duplicate(plate_text)] on the application's manager. *)
Definition check_duplicate (cfg : Config) (now : moment) (plate_text : string)
    : stmt app bool :=
  fun a =>
    let '(dup, detected) :=
      is_duplicate cfg (clock now) plate_text (duplicate_mgr a) in
    (Returns dup, with_detected a detected).

(** [data_mgr.save_detection(plate_data)] on the application's sinks. *)
Definition persist (now : moment) (row : plate_row) : stmt app bool :=
  fun a =>
    let '(saved, d) := save_detection (fails now) row (disk a) in
    (saved, with_disk a d).

Section Loop.

Variable cfg : Config.

(** The body of [for (x, y, w, h) in plates]. *)
Definition process_plate (now : moment) (p : plate) : stmt app unit :=
  let area := (w p * h p)%Z in
  if (area <? MIN_PLATE_AREA cfg)%Z || (MAX_PLATE_AREA cfg <? area)%Z
  then ret tt
  else
    d <- call (extract_text cfg (ocr p)) ;;
    let '(plate_text, conf, method) := d in
    if negb (validate_plate cfg plate_text) then ret tt
    else
      auto <- get_auto_save ;;
      if auto && ge (to_float conf) (AUTO_SAVE_THRESHOLD cfg)
      then
        dup <- check_duplicate cfg now plate_text ;;
        if dup then ret tt
        else persist now (plate_data now "Auto" d) ;;; ret tt
      else ret tt.

(** The key codes of the controls. *)
Definition key_q : Z := 113.
Definition key_a : Z := 97.
Definition key_d : Z := 100.
Definition key_s : Z := 115.
Definition key_space : Z := 32.

(** The branch [elif key in [ord('s'), 32] and len(plates) > 0]. *)
Definition manual_save (now : moment) (plates : list plate) : stmt app unit :=
  match plates with
  | [] => ret tt
  | first :: _ =>
      d <- call (extract_text cfg (ocr first)) ;;
      let '(plate_text, conf, method) := d in
      if is_empty plate_text then ret tt
      else
        dup <- check_duplicate cfg now plate_text ;;
        if dup then ret tt
        else persist now (plate_data now "Manual" d) ;;; ret tt
  end.

(** The controls at the end of a frame; the boolean tells whether the loop
    goes on. *)
Definition controls (now : moment) (key : Z) (plates : list plate)
    : stmt app bool :=
  if (key =? key_q)%Z then ret false
  else if (key =? key_a)%Z then
    fun a => (Returns true,
              {| auto_save := negb (auto_save a);
                 show_dashboard := show_dashboard a;
                 duplicate_mgr := duplicate_mgr a; disk := disk a |})
  else if (key =? key_d)%Z then
    fun a => (Returns true,
              {| auto_save := auto_save a;
                 show_dashboard := negb (show_dashboard a);
                 duplicate_mgr := duplicate_mgr a; disk := disk a |})
  else if ((key =? key_s)%Z || (key =? key_space)%Z)
          && (0 <? List.length plates)
  then manual_save now plates ;;; ret true
  else ret true.

End Loop.

End Main.

(** ** config.py: validate_config, and the frame counter of main *)

Module Startup.

(** The settings that [validate_config] and the frame counter read, besides
    [AUTO_SAVE_THRESHOLD]. *)
Record Settings : Type := {
  TESSERACT_PATH : string;
  CASCADE_PATH : string;
  CONFIDENCE_THRESHOLD : float;
  FRAME_SKIP : Z
}.

(** [0.0 <= x <= 1.0] *)
Definition in_unit_range (x : float) : bool :=
  PrimFloat.leb 0 x && PrimFloat.leb x 1.

(** [if cond: errors.append(message)] *)
Definition report (cond : bool) (message : string) (errors : list string)
    : list string :=
  if cond then errors ++ [message] else errors.

(** [validate_config()]; [path_exists] is [os.path.exists]. *)
Definition validate_config (path_exists : string -> bool) (s : Settings)
    (cfg : Config) : list string :=
  let errors := [] in
  let errors :=
    report (negb (path_exists (TESSERACT_PATH s)))
           ("Tesseract not found at: " ++ TESSERACT_PATH s) errors in
  let errors :=
    report (negb (path_exists (CASCADE_PATH s)))
           ("Cascade file not found at: " ++ CASCADE_PATH s) errors in
  let errors :=
    report (negb (in_unit_range (CONFIDENCE_THRESHOLD s)))
           "CONFIDENCE_THRESHOLD must be between 0.0 and 1.0" errors in
  let errors :=
    report (negb (in_unit_range (AUTO_SAVE_THRESHOLD cfg)))
           "AUTO_SAVE_THRESHOLD must be between 0.0 and 1.0" errors in
  let errors :=
    report (FRAME_SKIP s <? 1)%Z "FRAME_SKIP must be at least 1" errors in
  errors.

(** [a % b] on ints: the remainder has the sign of [b]; a zero [b] raises
    ZeroDivisionError. *)
Definition py_mod (a b : Z) : outcome Z :=
  if (b =? 0)%Z then Raises else Returns (a mod b)%Z.

(** [frame_count % config.FRAME_SKIP != 0]: the frame is shown and skipped. *)
Definition skips_frame (s : Settings) (frame_count : Z) : outcome bool :=
  match py_mod frame_count (FRAME_SKIP s) with
  | Returns r => Returns (negb (r =? 0)%Z)
  | Raises => Raises
  end.

End Startup.

(** ** init_database *)

Module Database.

Import DataManager.

(** A row of the [statistics] table. *)
Record statistics_row : Type := {
  date : string;
  total_detections : Z;
  unique_plates : Z;
  avg_confidence : number;
  avg_processing_time : number
}.

(** The database file: each of the two tables is missing or holds rows. *)
Record database : Type := {
  plates_table : option (list plate_row);
  statistics_table : option (list statistics_row)
}.

(** The steps of [init_database] that can raise. *)
Inductive step : Type :=
| MakeDirectories
| Connect
| CreatePlates
| CreateStatistics
| Commit
| Close.

Definition attempt (fails : step -> bool) (o : step) : stmt database unit :=
  call (if fails o then Raises else Returns tt).

(** [CREATE TABLE IF NOT EXISTS t (...)]: a missing table appears, empty. *)
Definition if_not_exists {A : Type} (table : option (list A)) : option (list A) :=
  match table with
  | Some rows => Some rows
  | None => Some []
  end.

Definition create_plates : stmt database unit :=
  fun db => (Returns tt,
             {| plates_table := if_not_exists (plates_table db);
                statistics_table := statistics_table db |}).

Definition create_statistics : stmt database unit :=
  fun db => (Returns tt,
             {| plates_table := plates_table db;
                statistics_table := if_not_exists (statistics_table db) |}).

Definition init_database (fails : step -> bool) : stmt database bool :=
  try_except
    (attempt fails MakeDirectories ;;;
     attempt fails Connect ;;;
     attempt fails CreatePlates ;;;
     create_plates ;;;
     attempt fails CreateStatistics ;;;
     create_statistics ;;;
     attempt fails Commit ;;;
     attempt fails Close ;;;
     ret true)
    (ret false).

End Database.

(** * Part II: vocabulary of the properties, and example inputs *)

(** ** The order of binary64 numbers *)

Module FloatRank.

(** A key that orders the binary64 values that are numbers the way
    [SFcompare] does: class and sign first, then exponent, then mantissa. *)
Definition rank (f : spec_float) : Z * Z * Z :=
  match f with
  | S754_nan => (0, 0, 0)
  | S754_zero _ => (0, 0, 0)
  | S754_infinity true => (-2, 0, 0)
  | S754_infinity false => (2, 0, 0)
  | S754_finite true m e => (-1, - e, - Z.pos m)
  | S754_finite false m e => (1, e, Z.pos m)
  end%Z.

Definition lex_lt (a b : Z * Z * Z) : Prop :=
  let '(a1, a2, a3) := a in
  let '(b1, b2, b3) := b in
  (a1 < b1 \/ (a1 = b1 /\ (a2 < b2 \/ (a2 = b2 /\ a3 < b3))))%Z.

Definition numeric (f : spec_float) : Prop := f <> S754_nan.

End FloatRank.

(** ** What [max] finds *)

Module MaxSpec.

Section MaxBy.

Context {A : Type}.
Variable key : A -> float.

(** The index at which [max] finds its answer: nothing in the list is
    greater, and everything before it is strictly smaller. *)
Definition first_maximum (l : list A) (i : nat) (best : A) : Prop :=
  nth_error l i = Some best /\
  (forall x, In x l -> gt (key x) (key best) = false) /\
  (forall j x, j < i -> nth_error l j = Some x -> gt (key best) (key x) = true).

End MaxBy.

End MaxSpec.

(** ** Result fusion *)

Module FusionSpec.

Import SmartOCR.

Section Collect.

Variable cfg : Config.
Variable ocr : region_ocr.

(** What the configuration [c] of the variant [m] yields when it is run:
    it raises, it yields no reading, or it yields one. *)
Definition contribution (m : method) (c : psm) : outcome (option reading) :=
  match image_to_data ocr m c with
  | Raises => Raises
  | Returns data => read_data cfg (method_name m) data
  end.

(** The cleaned text of a combination, when nothing raised on the way. *)
Definition combination_text (m : method) (c : psm) : outcome string :=
  match preprocess ocr m with
  | Raises => Raises
  | Returns _ =>
      match image_to_data ocr m c with
      | Raises => Raises
      | Returns data =>
          match scan_tokens data EmptyString [] with
          | Raises => Raises
          | Returns (text, _) => Returns (clean text)
          end
      end
  end.

(** The readings of a run of configurations, up to the first that raises. *)
Fixpoint until_raise (l : list (outcome (option reading))) : list reading :=
  match l with
  | [] => []
  | Raises :: _ => []
  | Returns None :: rest => until_raise rest
  | Returns (Some r) :: rest => r :: until_raise rest
  end.

(** What one variant adds to [results]. *)
Definition variant_readings (m : method) : list reading :=
  match preprocess ocr m with
  | Raises => []
  | Returns _ => until_raise (map (contribution m) psm_configs)
  end.

(** The readings of every combination that did not raise, in enumeration
    order: what fusion would collect if an exception skipped only the
    combination it was raised in. *)
Definition every_combination : list reading :=
  flat_map
    (fun m =>
       flat_map
         (fun c =>
            match preprocess ocr m, contribution m c with
            | Returns _, Returns (Some r) => [r]
            | _, _ => []
            end)
         psm_configs)
    methods.

Definition skips_only_failing_combination : Prop :=
  snd (collect cfg ocr) = every_combination.

End Collect.

Definition psm_index (c : psm) : nat :=
  match c with
  | PSM7 => 0
  | PSM8 => 1
  end.

(** Every preprocessing succeeds; PSM 7 raises on the adaptive image, PSM 8
    reads AB1234 on it, and nothing is read on the other images. *)
Definition psm7_raises : region_ocr := {|
  preprocess := fun _ => Returns tt;
  image_to_data := fun m c =>
    match m, c with
    | Adaptive, PSM7 => Raises
    | Adaptive, PSM8 => Returns [("AB1234"%string, Conf 90)]
    | _, _ => Returns []
    end
|}.

(** Nothing usable: a preprocessing that raises, an OCR call that raises, a
    text that is too short, a confidence that is no number, and no token. *)
Definition nothing_usable : region_ocr := {|
  preprocess := fun m =>
    match m with
    | Adaptive => Raises
    | _ => Returns tt
    end;
  image_to_data := fun m c =>
    match m, c with
    | Otsu, PSM7 => Raises
    | Otsu, PSM8 => Returns [("ab"%string, Conf 93); (" "%string, Conf 95)]
    | CLAHE, PSM7 => Returns [("AB1234"%string, Malformed)]
    | _, _ => Returns []
    end
|}.

(** Three readings, two of them with the highest confidence. *)
Definition tied_readings : list reading :=
  [ ("AB1234", 0.85, "Adaptive");
    ("AB1284", 0.9, "Adaptive");
    ("AB1234", 0.9, "Otsu") ]%string%float.

(** A region on which OCR yields those three readings: AB1234 at 85 and
    AB1284 at 90 on the adaptive image, AB1234 at 90 under PSM 7 on the Otsu
    image, a text that is too short under PSM 8 there, and nothing on the
    CLAHE image. *)
Definition tied_script : region_ocr := {|
  preprocess := fun _ => Returns tt;
  image_to_data := fun m c =>
    match m, c with
    | Adaptive, PSM7 => Returns [("ab12"%string, Conf 80); ("34"%string, Conf 90)]
    | Adaptive, PSM8 => Returns [("AB1284"%string, Conf 90); (" "%string, Conf (-1))]
    | Otsu, PSM7 => Returns [(" AB 1234 "%string, Conf 90)]
    | Otsu, PSM8 => Returns [("AB"%string, Conf 99)]
    | CLAHE, _ => Returns []
    end
|}.

End FusionSpec.

(** ** The duplicate window *)

Module DuplicateSpec.

Import DuplicateManager.

(** [seen] is older than the window at [current_time]. *)
Definition expired (cfg : Config) (current_time seen : float) : bool :=
  gt (PrimFloat.sub current_time seen) (float_of_int (DUPLICATE_TIME_WINDOW cfg)).

(** The texts that have an entry. *)
Definition texts (detected : list entry) : list string := map fst detected.

(** A session: the calls made so far, each with its clock reading, on a
    manager that started empty. *)
Definition run (cfg : Config) (calls : list (float * string)) : list entry :=
  fold_left (fun detected c => snd (is_duplicate cfg (fst c) (snd c) detected))
            calls init.

End DuplicateSpec.

(** ** The frame-time window *)

Module FrameTimesSpec.

Import PerformanceMonitor.



(** A monitor after it recorded [durations] in order. *)
Definition record_all (cfg : Config) (durations : list float) : deque float :=
  fold_left add_frame_time durations (init cfg).


(** [config.py] with another buffer size. *)
Definition with_buffer_size (n : nat) (cfg : Config) : Config := {|
  MIN_PLATE_AREA := MIN_PLATE_AREA cfg;
  MAX_PLATE_AREA := MAX_PLATE_AREA cfg;
  AUTO_SAVE_THRESHOLD := AUTO_SAVE_THRESHOLD cfg;
  MIN_PLATE_LENGTH := MIN_PLATE_LENGTH cfg;
  MAX_PLATE_LENGTH := MAX_PLATE_LENGTH cfg;
  DUPLICATE_TIME_WINDOW := DUPLICATE_TIME_WINDOW cfg;
  PERFORMANCE_BUFFER_SIZE := n
|}.

End FrameTimesSpec.

(** ** The persistence gateway *)

Module PersistenceSpec.

Import DataManager.

(** The operations of one statistics query. *)
Definition query_ops : list op :=
  [DbConnect; DbSelect 1; DbSelect 2; DbSelect 3; DbClose].

(** The store after one more committed row. *)
Definition with_row (st : storage) (row : plate_row) : storage :=
  {| plates := plates st ++ [row]; csv_file := csv_file st |}.

(** Only the export write fails. *)
Definition export_fails : faults :=
  fun o =>
    match o with
    | CsvWrite => true
    | _ => false
    end.

(** The second query of a call fails. *)
Definition second_query_fails : faults :=
  fun o =>
    match o with
    | DbSelect 2 => true
    | _ => false
    end.

(** An engine to run examples with: the date of a ['%Y-%m-%d %H:%M:%S'] text
    is its first ten characters, and the average is the sum over the count. *)
Definition reference_engine : engine := {|
  sql_date := fun text =>
    if String.length text <? 10 then None else Some (substring 0 10 text);
  sql_avg := fun column =>
    match column with
    | [] => None
    | _ :: _ => Some (PrimFloat.div (sum_floats (map to_float column))
                                    (float_of_int (Z.of_nat (List.length column))))
    end
|}.

(** A row of an automatic save. *)
Definition row_at (stamp text : string) (conf : float) : plate_row := {|
  timestamp := stamp;
  plate_number := text;
  confidence := PyFloat conf;
  image_path := "saved_plates/plate.jpg";
  location := "Auto";
  processing_time := PyInt 0;
  detection_method := "Otsu"
|}.

(** Two detections of the same plate on 2026-03-14 and one the day before. *)
Definition three_rows : storage := {|
  plates := [ row_at "2026-03-13 23:59:58" "XY9876" 0.9;
              row_at "2026-03-14 08:00:00" "AB1234" 0.875;
              row_at "2026-03-14 08:00:07" "AB1234" 0.75 ];
  csv_file := None
|}.

End PersistenceSpec.

(** ** Plate validation *)

Module ValidationSpec.

Import SmartOCR.

Fixpoint all_chars (p : ascii -> bool) (s : string) : bool :=
  match s with
  | EmptyString => true
  | String c rest => p c && all_chars p rest
  end.

(** A well-formed plate: a length within the bounds, and uppercase ASCII
    letters and digits only. *)
Definition well_formed (cfg : Config) (text : string) : bool :=
  (MIN_PLATE_LENGTH cfg <=? String.length text)
  && (String.length text <=? MAX_PLATE_LENGTH cfg)
  && all_chars plate_char text.

(** Where [$] matches: at the end, or before a final line feed. *)
Definition at_dollar (s : string) : bool :=
  match s with
  | EmptyString => true
  | String c EmptyString => Ascii.eqb c newline
  | String _ (String _ _) => false
  end.

(** One or more characters of the class, as many as possible, then [$]. *)
Fixpoint class_run (p : ascii -> bool) (s : string) : bool :=
  match s with
  | EmptyString => false
  | String c rest => p c && (class_run p rest || at_dollar rest)
  end.

(** ABCD followed by a line feed. *)
Definition abcd_newline : string := "ABCD" ++ String newline EmptyString.

End ValidationSpec.

(** ** The two save paths *)

Module SavePathsSpec.

Import SmartOCR DuplicateManager DataManager Main.

(** The statement left the [plates] table as it was, or added one row, which
    satisfies [P]. *)
Definition adds (P : plate_row -> Prop) (before after : storage) : Prop :=
  plates after = plates before \/
  exists row, plates after = plates before ++ [row] /\ P row.

(** OCR reads ABCDEFGHIJK on the adaptive image and nothing elsewhere. *)
Definition long_text : region_ocr := {|
  preprocess := fun _ => Returns tt;
  image_to_data := fun m c =>
    match m, c with
    | Adaptive, PSM7 => Returns [("ABCDEFGHIJK"%string, Conf 90)]
    | _, _ => Returns []
    end
|}.

(** OCR reads AB-1234 on the adaptive image and nothing elsewhere. *)
Definition hyphen_text : region_ocr := {|
  preprocess := fun _ => Returns tt;
  image_to_data := fun m c =>
    match m, c with
    | Adaptive, PSM7 => Returns [("AB-1234"%string, Conf 90)]
    | _, _ => Returns []
    end
|}.

Definition plate_of (o : region_ocr) : plate :=
  {| x := 100; y := 80; w := 200; h := 50; ocr := o |}.

Definition noon : moment := {|
  clock := 1000;
  stamp := "2026-03-14 12:00:00";
  stamp_compact := "20260314_120000";
  fails := no_faults
|}.

(** The application right after start-up, with auto-save switched on. *)
Definition started : app := {|
  auto_save := true;
  show_dashboard := true;
  duplicate_mgr := [];
  disk := {| plates := []; csv_file := None |}
|}.

Definition manual_row (text : string) : plate_row := {|
  timestamp := "2026-03-14 12:00:00";
  plate_number := text;
  confidence := PyFloat 0.9;
  image_path := "saved_plates/plate_20260314_120000.jpg";
  location := "Manual";
  processing_time := PyInt 0;
  detection_method := "Adaptive"
|}.

End SavePathsSpec.

(** ** Cleaned text *)

Module TextSpec.

Import ValidationSpec.

Definition first_char (s : string) : option ascii :=
  match s with
  | EmptyString => None
  | String c _ => Some c
  end.

Fixpoint last_char (s : string) : option ascii :=
  match s with
  | EmptyString => None
  | String c rest =>
      match last_char rest with
      | None => Some c
      | Some d => Some d
      end
  end.

(** No whitespace at this end of a text, if the text has an end. *)
Definition solid (end_char : option ascii) : Prop :=
  match end_char with
  | None => True
  | Some c => isspace c = false
  end.

(** Neither a space nor a lowercase ASCII letter. *)
Definition clean_char (c : ascii) : bool :=
  negb (Ascii.eqb c " "%char) && negb (is_lower_letter c).

(** What [text.strip().replace(" ", "").upper()] leaves: no space, no
    lowercase letter, and no whitespace at either end. *)
Definition cleaned (s : string) : Prop :=
  all_chars clean_char s = true /\ solid (first_char s) /\ solid (last_char s).

End TextSpec.

(** ** The shape of a fused detection *)

Module ShapeSpec.

Import SmartOCR TextSpec.

Definition method_names : list string := map method_name methods.

(** A reading as the inner loop appends them: named after a variant, with a
    cleaned text of at least the minimum length. *)
Definition usable (cfg : Config) (text name : string) : Prop :=
  In name method_names /\
  text <> EmptyString /\
  MIN_PLATE_LENGTH cfg <= String.length text /\
  cleaned text.

End ShapeSpec.

(** ** What the two save paths persist *)

Module PersistSpec.

Import SmartOCR DuplicateManager DataManager Main ValidationSpec ShapeSpec.

(** A row as the frame loop writes it for the plate [p] at [now]. *)
Definition auto_row (cfg : Config) (now : moment) (p : plate) (row : plate_row)
    : Prop :=
  well_formed cfg (plate_number row) = true /\
  plate_number row <> EmptyString /\
  ge (to_float (confidence row)) (AUTO_SAVE_THRESHOLD cfg) = true /\
  extract_text cfg (ocr p)
  = Returns (plate_number row, confidence row, detection_method row) /\
  timestamp row = stamp now /\
  image_path row = img_path now /\
  location row = "Auto"%string /\
  processing_time row = PyInt 0.

(** A row as the manual branch writes it for the plate [p] at [now]. *)
Definition manual_row_of (cfg : Config) (now : moment) (p : plate)
    (row : plate_row) : Prop :=
  usable cfg (plate_number row) (detection_method row) /\
  extract_text cfg (ocr p)
  = Returns (plate_number row, confidence row, detection_method row) /\
  timestamp row = stamp now /\
  image_path row = img_path now /\
  location row = "Manual"%string /\
  processing_time row = PyInt 0.

(** The plate's area passes the filter of the frame loop. *)
Definition area_ok (cfg : Config) (p : plate) : bool :=
  negb ((w p * h p <? MIN_PLATE_AREA cfg)%Z || (MAX_PLATE_AREA cfg <? w p * h p)%Z).

End PersistSpec.

(** ** A session of saves *)

Module LedgerSpec.

Import DataManager.

(** The line that [save_detection] exports for a row. *)
Definition export (r : plate_row) : csv_line :=
  Row (timestamp r) (plate_number r) (confidence r) (image_path r).

(** The insert reaches the table: connecting, inserting and committing work. *)
Definition db_ok (fails : faults) : bool :=
  negb (fails DbConnect) && negb (fails DbInsert) && negb (fails DbCommit).

(** Every step of a save works. *)
Definition all_ok (fails : faults) : bool :=
  db_ok fails && negb (fails DbClose) && negb (fails CsvWrite).

(** The export file after one more line. *)
Definition append_line (file : option (list csv_line)) (line : csv_line)
    : option (list csv_line) :=
  match file with
  | Some lines => Some (lines ++ [line])
  | None => Some [Header; line]
  end.

(** Nothing on disk yet: an empty table and no export file. *)
Definition empty_storage : storage := {| plates := []; csv_file := None |}.

(** The saves of a session, each with the faults it meets. *)
Definition save_all (attempts : list (faults * plate_row)) (st : storage)
    : storage :=
  fold_left (fun st x => snd (save_detection (fst x) (snd x) st)) attempts st.

(** An export file that holds [lines] below its header, if it holds any. *)
Definition file_of (lines : list csv_line) : option (list csv_line) :=
  match lines with
  | [] => None
  | _ :: _ => Some (Header :: lines)
  end.

(** The plate text was already detected today. *)
Definition seen_today (text : string) (rows : list plate_row) : bool :=
  existsb (String.eqb text) (map plate_number rows).

End LedgerSpec.

(** ** Start-up checks *)

Module StartupSpec.

Import Startup.

(** The five checks of [validate_config], in its order: true for a check
    that fails. *)
Definition failed_checks (path_exists : string -> bool) (s : Settings)
    (cfg : Config) : list bool :=
  [ negb (path_exists (TESSERACT_PATH s));
    negb (path_exists (CASCADE_PATH s));
    negb (in_unit_range (CONFIDENCE_THRESHOLD s));
    negb (in_unit_range (AUTO_SAVE_THRESHOLD cfg));
    (FRAME_SKIP s <? 1)%Z ].

(** The message of each check, in the same order. *)
Definition messages (s : Settings) : list string :=
  [ ("Tesseract not found at: " ++ TESSERACT_PATH s)%string;
    ("Cascade file not found at: " ++ CASCADE_PATH s)%string;
    "CONFIDENCE_THRESHOLD must be between 0.0 and 1.0"%string;
    "AUTO_SAVE_THRESHOLD must be between 0.0 and 1.0"%string;
    "FRAME_SKIP must be at least 1"%string ].

(** The messages whose check failed, in the order of the checks. *)
Fixpoint selected (failed : list bool) (msgs : list string) : list string :=
  match failed, msgs with
  | true :: failed', m :: msgs' => m :: selected failed' msgs'
  | false :: failed', _ :: msgs' => selected failed' msgs'
  | _, _ => []
  end.

(** Every third frame is processed. *)
Definition every_third : Settings := {|
  TESSERACT_PATH := "tesseract.exe";
  CASCADE_PATH := "models/haarcascade_russian_plate_number.xml";
  CONFIDENCE_THRESHOLD := 0.6;
  FRAME_SKIP := 3
|}.

(** A file system on which every path exists. *)
Definition all_present : string -> bool := fun _ => true.

End StartupSpec.

(** ** The tokens of one OCR call *)

Module TokenSpec.

Import SmartOCR.

(** The tokens that count: those with a positive confidence, and those whose
    confidence [int(...)] cannot read. *)
Definition counts (t : token) : bool :=
  match snd t with
  | Conf n => (0 <? n)%Z
  | Malformed => true
  end.

End TokenSpec.

(** ** Initialising the database *)

Module DatabaseSpec.

Import DataManager Database.

(** The steps up to the creation of the [plates] table work. *)
Definition reaches_plates (fails : step -> bool) : bool :=
  negb (fails MakeDirectories) && negb (fails Connect)
  && negb (fails CreatePlates).

(** The steps up to the creation of the [statistics] table work. *)
Definition reaches_statistics (fails : step -> bool) : bool :=
  reaches_plates fails && negb (fails CreateStatistics).

(** Every step works. *)
Definition all_steps (fails : step -> bool) : bool :=
  reaches_statistics fails && negb (fails Commit) && negb (fails Close).

(** The table, with its rows, is still there. *)
Definition kept {A : Type} (before after : option (list A)) : Prop :=
  forall rows, before = Some rows -> after = Some rows.

End DatabaseSpec.

(** ** The controls *)

Module ControlsSpec.

Import Main.

(** The key triggers a manual save. *)
Definition saves (key : Z) : bool := (key =? key_s)%Z || (key =? key_space)%Z.

End ControlsSpec.

(** ** Example frames for the save paths *)

Module RetrySpec.

Import SmartOCR DuplicateManager DataManager Main SavePathsSpec.

(** OCR reads AB1234 on the adaptive image and nothing elsewhere. *)
Definition good_text : region_ocr := {|
  preprocess := fun _ => Returns tt;
  image_to_data := fun m c =>
    match m, c with
    | Adaptive, PSM7 => Returns [("AB1234"%string, Conf 90)]
    | _, _ => Returns []
    end
|}.

(** The moment [noon], with a database that cannot be reached. *)
Definition noon_db_down : moment := {|
  clock := 1000;
  stamp := "2026-03-14 12:00:00";
  stamp_compact := "20260314_120000";
  fails := fun o => match o with DbConnect => true | _ => false end
|}.

(** Three seconds after [noon], with nothing failing. *)
Definition three_seconds_later : moment := {|
  clock := 1003;
  stamp := "2026-03-14 12:00:03";
  stamp_compact := "20260314_120003";
  fails := no_faults
|}.

(** The application two seconds after it recorded AB1234. *)
Definition recorded : app := {|
  auto_save := true;
  show_dashboard := true;
  duplicate_mgr := [("AB1234"%string, 998%float)];
  disk := {| plates := []; csv_file := None |}
|}.

End RetrySpec.

(** * Part III: the properties *)

(** ** Float comparison *)

Module FloatOrder.

Import FloatRank.

Lemma SFltb_rank (a b : spec_float) :
  numeric a -> numeric b -> (SFltb a b = true <-> lex_lt (rank a) (rank b)).
Proof.
  unfold numeric, SFltb, SFcompare, lex_lt.
  destruct a as [[]|[]| |[] ma ea], b as [[]|[]| |[] mb eb]; cbn;
    intros Ha Hb; try congruence;
    try (split; [ discriminate | lia ]);
    try (split; [ lia | reflexivity ]);
    fold (Pos.compare ma mb);
    destruct (Z.compare_spec ea eb); cbn;
    try destruct (Pos.compare_spec ma mb); cbn;
    split; try discriminate; try reflexivity; lia.
Qed.

Lemma SFltb_numeric (a b : spec_float) :
  SFltb a b = true -> numeric a /\ numeric b.
Proof.
  unfold SFltb, numeric; destruct a, b; cbn; try discriminate; split; congruence.
Qed.

Lemma is_number_spec (a : float) : is_number a = true <-> numeric (Prim2SF a).
Proof.
  unfold is_number, PrimFloat.is_nan, numeric.
  rewrite negb_involutive, FloatAxioms.eqb_spec.
  unfold SFeqb, SFcompare.
  destruct (Prim2SF a) as [[]|[]| |[] m e]; cbn; try (split; congruence).
  all: rewrite Z.compare_refl; fold (Pos.compare m m);
    rewrite Pos.compare_refl; cbn; split; congruence.
Qed.

Ltac ranks :=
  unfold lex_lt in *;
  repeat match goal with
         | |- context [rank ?f] =>
             let a := fresh "a" in let b := fresh "b" in let c := fresh "c" in
             destruct (rank f) as [[a b] c]
         | H : context [rank ?f] |- _ =>
             let a := fresh "a" in let b := fresh "b" in let c := fresh "c" in
             destruct (rank f) as [[a b] c]
         end;
  lia.

Lemma gt_irrefl (a : float) : gt a a = false.
Proof.
  unfold gt. rewrite FloatAxioms.ltb_spec.
  destruct (SFltb (Prim2SF a) (Prim2SF a)) eqn:E; [ | reflexivity ].
  destruct (SFltb_numeric _ _ E) as [Ha _].
  apply (SFltb_rank _ _ Ha Ha) in E. ranks.
Qed.

Lemma gt_trans (a b c : float) :
  gt a b = true -> gt b c = true -> gt a c = true.
Proof.
  unfold gt. rewrite !FloatAxioms.ltb_spec. intros Hab Hbc.
  destruct (SFltb_numeric _ _ Hab) as [Hb Ha].
  destruct (SFltb_numeric _ _ Hbc) as [Hc _].
  apply (SFltb_rank _ _ Hb Ha) in Hab. apply (SFltb_rank _ _ Hc Hb) in Hbc.
  apply (SFltb_rank _ _ Hc Ha). ranks.
Qed.

(** Among numbers, "not greater" is transitive. *)
Lemma not_gt_trans (a b c : float) :
  is_number a = true -> is_number b = true -> is_number c = true ->
  gt a b = false -> gt b c = false -> gt a c = false.
Proof.
  rewrite !is_number_spec. unfold gt. rewrite !FloatAxioms.ltb_spec.
  intros Ha Hb Hc Hab Hbc.
  destruct (SFltb (Prim2SF c) (Prim2SF a)) eqn:E; [ exfalso | reflexivity ].
  apply (SFltb_rank _ _ Hc Ha) in E.
  assert (H1 : ~ lex_lt (rank (Prim2SF b)) (rank (Prim2SF a))).
  { intro H. apply (SFltb_rank _ _ Hb Ha) in H. congruence. }
  assert (H2 : ~ lex_lt (rank (Prim2SF c)) (rank (Prim2SF b))).
  { intro H. apply (SFltb_rank _ _ Hc Hb) in H. congruence. }
  ranks.
Qed.

(** Among numbers, [a >= b] is "not [b > a]". *)
Lemma ge_not_gt (a b : float) :
  is_number a = true -> is_number b = true -> ge a b = negb (gt b a).
Proof.
  rewrite !is_number_spec. unfold ge, gt.
  rewrite FloatAxioms.ltb_spec, FloatAxioms.leb_spec.
  intros Ha Hb. unfold numeric, SFleb, SFltb, SFcompare in *.
  destruct (Prim2SF a) as [[]|[]| |[] ma ea], (Prim2SF b) as [[]|[]| |[] mb eb];
    cbn; try congruence;
    fold (Pos.compare ma mb); fold (Pos.compare mb ma);
    rewrite (Z.compare_antisym ea eb); rewrite (Pos.compare_antisym ma mb);
    destruct (ea ?= eb)%Z; cbn; try reflexivity;
    destruct (ma ?= mb)%positive; reflexivity.
Qed.

End FloatOrder.

(** ** [max] *)

Import MaxSpec.

Section MaxBy.

Context {A : Type}.
Variable key : A -> float.

Let numbers (l : list A) : Prop :=
  Forall (fun x => is_number (key x) = true) l.

Lemma max_by_snoc (first : A) (rest : list A) (x : A) :
  max_by key first (rest ++ [x]) =
  (if gt (key x) (key (max_by key first rest)) then x
   else max_by key first rest).
Proof. unfold max_by. rewrite fold_left_app. reflexivity. Qed.

Lemma max_by_first_maximum (first : A) (rest : list A) :
  numbers (first :: rest) ->
  exists i, first_maximum key (first :: rest) i (max_by key first rest).
Proof.
  induction rest as [ | x rest IH ] using rev_ind; intros Hnum.
  - exists 0. repeat split.
    + intros x [ <- | [] ]. apply FloatOrder.gt_irrefl.
    + intros j x Hj. lia.
  - unfold numbers in Hnum. rewrite app_comm_cons in Hnum.
    apply Forall_app in Hnum. destruct Hnum as [Hnum Hx].
    apply Forall_inv in Hx.
    destruct (IH Hnum) as (i & Hi & Hmax & Hbefore).
    assert (Hbest : is_number (key (max_by key first rest)) = true).
    { apply nth_error_In in Hi.
      exact (proj1 (Forall_forall _ _) Hnum _ Hi). }
    assert (Hlen : i < length (first :: rest)).
    { apply nth_error_Some. congruence. }
    rewrite max_by_snoc, app_comm_cons.
    destruct (gt (key x) (key (max_by key first rest))) eqn:Hgt.
    + exists (length (first :: rest)). repeat split.
      * rewrite nth_error_app2, Nat.sub_diag by lia. reflexivity.
      * intros y Hy. apply in_app_or in Hy. destruct Hy as [Hy | [ <- | [] ]].
        -- destruct (gt (key y) (key x)) eqn:Hyx; [ | reflexivity ].
           rewrite <- (Hmax y Hy). symmetry.
           exact (FloatOrder.gt_trans _ _ _ Hyx Hgt).
        -- apply FloatOrder.gt_irrefl.
      * intros j y Hj Hy. rewrite nth_error_app1 in Hy by exact Hj.
        apply nth_error_In in Hy.
        destruct (gt (key x) (key y)) eqn:Hxy; [ reflexivity | ].
        rewrite <- Hgt. symmetry.
        apply (FloatOrder.not_gt_trans _ (key y)); auto.
        exact (proj1 (Forall_forall _ _) Hnum _ Hy).
    + exists i. repeat split.
      * rewrite nth_error_app1 by exact Hlen. exact Hi.
      * intros y Hy. apply in_app_or in Hy. destruct Hy as [Hy | [ <- | [] ]].
        -- exact (Hmax y Hy).
        -- exact Hgt.
      * intros j y Hj Hy. rewrite nth_error_app1 in Hy by lia.
        exact (Hbefore j y Hj Hy).
Qed.

End MaxBy.

(** ** Result fusion *)

Module Fusion.

Import SmartOCR FusionSpec.

Section Collect.

Variable cfg : Config.
Variable ocr : region_ocr.

Lemma psm_body_run (m : method) (c : psm) (results : list reading) :
  psm_body cfg ocr m c results =
  match contribution cfg ocr m c with
  | Raises => (Raises, results)
  | Returns None => (Returns tt, results)
  | Returns (Some r) => (Returns tt, results ++ [r])
  end.
Proof.
  unfold psm_body, contribution, bind, call.
  destruct (image_to_data ocr m c) as [data | ]; [ | reflexivity ].
  destruct (read_data cfg (method_name m) data) as [[r | ] | ]; reflexivity.
Qed.

Lemma for_each_psm_results (m : method) (cs : list psm) (results : list reading) :
  snd (for_each cs (psm_body cfg ocr m) results) =
  results ++ until_raise (map (contribution cfg ocr m) cs).
Proof.
  revert results. induction cs as [ | c cs IH ]; intros results; cbn.
  - now rewrite app_nil_r.
  - unfold bind. rewrite psm_body_run.
    destruct (contribution cfg ocr m c) as [[r | ] | ]; cbn.
    + rewrite IH, <- app_assoc. reflexivity.
    + apply IH.
    + now rewrite app_nil_r.
Qed.

Lemma try_method_run (m : method) (results : list reading) :
  try_method cfg ocr m results = (Returns tt, results ++ variant_readings cfg ocr m).
Proof.
  unfold try_method, try_except, method_body, variant_readings, bind, call, ret.
  destruct (preprocess ocr m) as [ [] | ].
  - rewrite (surjective_pairing (for_each psm_configs (psm_body cfg ocr m) results)).
    rewrite for_each_psm_results.
    destruct (fst (for_each psm_configs (psm_body cfg ocr m) results)) as [ [] | ];
      reflexivity.
  - now rewrite app_nil_r.
Qed.

Lemma for_each_method_run (ms : list method) (results : list reading) :
  for_each ms (try_method cfg ocr) results =
  (Returns tt, results ++ flat_map (variant_readings cfg ocr) ms).
Proof.
  revert results. induction ms as [ | m ms IH ]; intros results; cbn.
  - unfold ret. now rewrite app_nil_r.
  - unfold bind. rewrite try_method_run, IH, <- app_assoc. reflexivity.
Qed.

(** The outer loop never raises, and [results] is the variants' readings in
    the order of [methods]. *)
Lemma collect_run :
  collect cfg ocr = (Returns tt, flat_map (variant_readings cfg ocr) methods).
Proof. unfold collect. now rewrite for_each_method_run. Qed.

Lemma extract_text_run :
  extract_text cfg ocr = Returns (fuse (snd (collect cfg ocr))).
Proof. unfold extract_text. rewrite collect_run. reflexivity. Qed.

End Collect.

(** C1.  When the readings that [extract_text] gathered over the variants
    and configurations, in their enumeration order, are not empty and their
    confidences are numbers, [extract_text] returns one of them: no reading
    has a greater confidence, and every reading enumerated before it has a
    strictly smaller one, so it is the earliest of the readings with the
    maximum confidence.  The answer is a function of the gathered list. *)
Theorem fusion_returns_first_maximum (cfg : Config) (ocr : region_ocr) :
  let results := snd (collect cfg ocr) in
  results <> [] ->
  Forall (fun r => is_number (reading_conf r) = true) results ->
  results = flat_map (variant_readings cfg ocr) methods /\
  (exists i text conf name,
      extract_text cfg ocr = Returns (text, PyFloat conf, name) /\
      nth_error results i = Some (text, conf, name) /\
      (forall r, In r results -> ge conf (reading_conf r) = true) /\
      (forall j r, j < i -> nth_error results j = Some r ->
                   gt conf (reading_conf r) = true)) /\
  (forall cfg' ocr', snd (collect cfg' ocr') = results ->
                     extract_text cfg' ocr' = extract_text cfg ocr).
Proof.
  cbv zeta. intros Hne Hnum.
  split; [ now rewrite collect_run | ].
  split; [ | intros cfg' ocr' Hc; now rewrite !extract_text_run, Hc ].
  rewrite extract_text_run.
  destruct (snd (collect cfg ocr)) as [ | first rest ]; [ congruence | ].
  destruct (max_by_first_maximum reading_conf first rest Hnum)
    as (i & Hi & Hmax & Hbefore).
  assert (Hfuse : forall best, max_by reading_conf first rest = best ->
            fuse (first :: rest) = (fst (fst best), PyFloat (snd (fst best)), snd best)).
  { intros [[t c] n] E. cbn. rewrite E. reflexivity. }
  specialize (Hfuse _ eq_refl).
  destruct (max_by reading_conf first rest) as [[text conf] name] eqn:Ebest.
  cbn [fst snd] in Hfuse.
  exists i, text, conf, name. repeat split.
  - now rewrite Hfuse.
  - exact Hi.
  - intros r Hr. rewrite FloatOrder.ge_not_gt.
    + change conf with (reading_conf (text, conf, name)).
      now rewrite (Hmax r Hr).
    + apply nth_error_In in Hi.
      exact (proj1 (Forall_forall _ _) Hnum _ Hi).
    + exact (proj1 (Forall_forall _ _) Hnum _ Hr).
  - exact Hbefore.
Qed.

(** On the region that yields the three tied readings. *)
Lemma fusion_returns_first_maximum_witness :
  let results := snd (collect config tied_script) in
  results <> [] /\
  Forall (fun r => is_number (reading_conf r) = true) results /\
  results = flat_map (variant_readings config tied_script) methods /\
  (exists i text conf name,
      extract_text config tied_script = Returns (text, PyFloat conf, name) /\
      nth_error results i = Some (text, conf, name) /\
      (forall r, In r results -> ge conf (reading_conf r) = true) /\
      (forall j r, j < i -> nth_error results j = Some r ->
                   gt conf (reading_conf r) = true)) /\
  (forall cfg' ocr', snd (collect cfg' ocr') = results ->
                     extract_text cfg' ocr' = extract_text config tied_script).
Proof.
  assert (Hrun : snd (collect config tied_script) = tied_readings)
    by reflexivity.
  cbv zeta. split; [ rewrite Hrun; discriminate | ].
  split; [ rewrite Hrun; repeat constructor | ].
  apply (fusion_returns_first_maximum config tied_script).
  - rewrite Hrun. discriminate.
  - rewrite Hrun. repeat constructor.
Defined.

(** On that region the three readings are gathered in enumeration order, and
    the winner is the second: the first of the two with confidence 0.9. *)
Example extract_text_tied_script :
  snd (collect config tied_script) = tied_readings /\
  extract_text config tied_script
  = Returns ("AB1284"%string, PyFloat 0.9, "Adaptive"%string).
Proof. split; reflexivity. Qed.

(** C2, as stated, fails: PSM 7 raises on the adaptive image, PSM 8 would read
    AB1234 there, and fusion does not collect that reading; it answers
    "no result". *)
Lemma psm7_error_drops_psm8 :
  image_to_data psm7_raises Adaptive PSM7 = Raises /\
  contribution config psm7_raises Adaptive PSM8 =
    Returns (Some ("AB1234"%string, 0.9%float, "Adaptive"%string)) /\
  ~ skips_only_failing_combination config psm7_raises /\
  extract_text config psm7_raises = Returns no_result.
Proof.
  split; [ reflexivity | ].
  split; [ reflexivity | ].
  split; [ | reflexivity ].
  unfold skips_only_failing_combination. vm_compute. discriminate.
Qed.

(** C2, amended.  The loop over the variants never raises, and an exception
    ends the variant it was raised in: [results] holds, variant by variant,
    the readings of the configurations up to the first that raised.  So a
    reading is collected exactly when its variant's preprocessing returned,
    no configuration of that variant enumerated up to its own raised, and its
    own yielded it; the other variants are not affected. *)
Theorem collect_until_raise (cfg : Config) (ocr : region_ocr) :
  collect cfg ocr = (Returns tt, flat_map (variant_readings cfg ocr) methods) /\
  forall r,
    In r (snd (collect cfg ocr)) <->
    exists m c,
      preprocess ocr m = Returns tt /\
      (forall c', psm_index c' <= psm_index c ->
                  contribution cfg ocr m c' <> Raises) /\
      contribution cfg ocr m c = Returns (Some r).
Proof.
  split; [ apply collect_run | ].
  intros r. rewrite collect_run. cbn [snd]. rewrite in_flat_map. split.
  - intros (m & _ & Hr). unfold variant_readings in Hr.
    destruct (preprocess ocr m) as [ [] | ] eqn:Hp; [ | destruct Hr ].
    cbn in Hr.
    destruct (contribution cfg ocr m PSM7) as [ [r7 | ] | ] eqn:H7;
      destruct (contribution cfg ocr m PSM8) as [ [r8 | ] | ] eqn:H8;
      cbn in Hr; try tauto.
    all: repeat match goal with
           | H : _ \/ _ |- _ => destruct H
           | H : False |- _ => destruct H
           end; subst.
    all: try (exists m, PSM7; repeat split; [ exact Hp | | exact H7 ];
              intros [] Hle; cbn in Hle; [ congruence | lia ]).
    all: exists m, PSM8; repeat split; [ exact Hp | | exact H8 ];
         intros [] Hle; congruence.
  - intros (m & c & Hp & Hearlier & Hc). exists m. split.
    + destruct m; cbn; auto.
    + unfold variant_readings. rewrite Hp. cbn. destruct c.
      * rewrite Hc. cbn. now left.
      * specialize (Hearlier PSM7 (Nat.le_succ_diag_r 0)). rewrite Hc.
        destruct (contribution cfg ocr m PSM7) as [ [r7 | ] | ];
          cbn; [ right; now left | now left | congruence ].
Qed.

(** C5.  When every combination raises or yields a text that is empty or
    shorter than the minimum length, [extract_text] returns the "no result"
    triple; it does not raise. *)
Theorem extract_text_no_result (cfg : Config) (ocr : region_ocr) :
  (forall m c,
      match combination_text ocr m c with
      | Raises => True
      | Returns text =>
          text = EmptyString \/ String.length text < MIN_PLATE_LENGTH cfg
      end) ->
  extract_text cfg ocr = Returns no_result.
Proof.
  intros Hall. rewrite extract_text_run, collect_run. cbn [snd].
  assert (Hnone : forall m, variant_readings cfg ocr m = []).
  { intros m. unfold variant_readings.
    destruct (preprocess ocr m) as [ [] | ] eqn:Hp; [ | reflexivity ].
    assert (Hc : forall c, contribution cfg ocr m c = Raises \/
                           contribution cfg ocr m c = Returns None).
    { intros c. specialize (Hall m c).
      unfold combination_text in Hall. rewrite Hp in Hall.
      unfold contribution, read_data.
      destruct (image_to_data ocr m c) as [data | ]; [ | now left ].
      destruct (scan_tokens data EmptyString []) as [[text confs] | ];
        [ | now left ].
      right. unfold long_enough.
      destruct Hall as [-> | Hshort]; [ reflexivity | ].
      apply Nat.leb_gt in Hshort. rewrite Hshort.
      now rewrite andb_false_r. }
    cbn. destruct (Hc PSM7) as [-> | ->]; [ reflexivity | ].
    destruct (Hc PSM8) as [-> | ->]; reflexivity. }
  cbn. now rewrite !Hnone.
Qed.

(** On the region where nothing is usable. *)
Lemma extract_text_no_result_witness :
  (forall m c,
      match combination_text nothing_usable m c with
      | Raises => True
      | Returns text =>
          text = EmptyString \/ String.length text < MIN_PLATE_LENGTH config
      end) /\
  extract_text config nothing_usable = Returns no_result.
Proof.
  assert (H : forall m c,
      match combination_text nothing_usable m c with
      | Raises => True
      | Returns text =>
          text = EmptyString \/ String.length text < MIN_PLATE_LENGTH config
      end).
  { intros [] []; vm_compute; auto. }
  split; [ exact H | ].
  apply (extract_text_no_result config nothing_usable H).
Defined.

End Fusion.

(** ** The duplicate window *)

Module DuplicateWindow.

Import DuplicateManager DuplicateSpec.

(** Eviction removes a run of expired entries from the left and stops at the
    first entry that has not expired. *)
Lemma evict_spec (cfg : Config) (now : float) (detected : list entry) :
  exists old,
    detected = old ++ evict cfg now detected /\
    Forall (fun e => expired cfg now (snd e) = true) old /\
    match evict cfg now detected with
    | [] => True
    | e :: _ => expired cfg now (snd e) = false
    end.
Proof.
  induction detected as [ | [plate seen] rest (old & Hsplit & Hold & Hhead) ].
  - exists []. cbn. auto.
  - cbn [evict]. fold (expired cfg now seen).
    destruct (expired cfg now seen) eqn:E.
    + exists ((plate, seen) :: old). split; [ | split ].
      * cbn [app]. f_equal. exact Hsplit.
      * constructor; [ exact E | exact Hold ].
      * exact Hhead.
    + exists []. split; [ reflexivity | split; [ constructor | exact E ] ].
Qed.

Lemma seen_recently_In (text : string) (detected : list entry) :
  seen_recently text detected = true <-> exists seen, In (text, seen) detected.
Proof.
  induction detected as [ | [plate seen] rest IH ]; cbn.
  - split; [ discriminate | intros (? & []) ].
  - destruct (String.eqb_spec plate text) as [-> | Hne].
    + split; [ intros _; exists seen; now left | reflexivity ].
    + rewrite IH. split.
      * intros (s & Hs). exists s. now right.
      * intros (s & [Hs | Hs]); [ congruence | now exists s ].
Qed.

Lemma seen_recently_texts (text : string) (detected : list entry) :
  seen_recently text detected = true <-> In text (texts detected).
Proof.
  rewrite seen_recently_In. unfold texts. rewrite in_map_iff. split.
  - intros (seen & H). now exists (text, seen).
  - intros ([plate seen] & E & H). cbn in E. subst. now exists seen.
Qed.

(** One call keeps the texts of the deque distinct. *)
Lemma is_duplicate_NoDup (cfg : Config) (now : float) (text : string)
    (detected : list entry) :
  NoDup (texts detected) ->
  NoDup (texts (snd (is_duplicate cfg now text detected))).
Proof.
  intros Hnd. unfold is_duplicate.
  destruct (evict_spec cfg now detected) as (old & Hsplit & _ & _).
  assert (Hrem : NoDup (texts (evict cfg now detected))).
  { rewrite Hsplit in Hnd. unfold texts in *. rewrite map_app in Hnd.
    now apply NoDup_app_remove_l in Hnd. }
  destruct (seen_recently text (evict cfg now detected)) eqn:E; cbn [snd].
  - exact Hrem.
  - unfold texts. rewrite map_app. cbn.
    apply NoDup_app; [ exact Hrem | repeat constructor; intros [] | ].
    intros t Ht. intros [ <- | [] ].
    apply seen_recently_texts in Ht. congruence.
Qed.

Local Open Scope string_scope.
Local Open Scope float_scope.

(** C3.  Let [remaining] be the deque after eviction at the time of the call:
    the deque without its leading run of entries older than the window.
    When an entry for the text remains, [is_duplicate] answers true and
    leaves the deque as [remaining]: nothing is recorded and the entry keeps
    its timestamp.  When none remains, it answers false and appends the text
    with the time of the call.  With the 5-second window: XYZ123 recorded at
    0 is a duplicate at 4, its entry still carries 0, and at 6 it is no
    duplicate and is recorded again, whether or not it was asked about
    at 4. *)
Theorem is_duplicate_window (cfg : Config) (now : float) (text : string)
    (detected : list entry) :
  let remaining := evict cfg now detected in
  (exists old,
      detected = (old ++ remaining)%list /\
      Forall (fun e => expired cfg now (snd e) = true) old /\
      match remaining with
      | [] => True
      | e :: _ => expired cfg now (snd e) = false
      end) /\
  ((exists seen, In (text, seen) remaining) ->
   is_duplicate cfg now text detected = (true, remaining)) /\
  ((forall seen, ~ In (text, seen) remaining) ->
   is_duplicate cfg now text detected
   = (false, (remaining ++ [(text, now)])%list)) /\
  is_duplicate config 0 "XYZ123" [] = (false, [("XYZ123", 0)]) /\
  is_duplicate config 4 "XYZ123" [("XYZ123", 0)] = (true, [("XYZ123", 0)]) /\
  is_duplicate config 6 "XYZ123" [("XYZ123", 0)] = (false, [("XYZ123", 6)]) /\
  run config [(0, "XYZ123"); (4, "XYZ123"); (6, "XYZ123")] = [("XYZ123", 6)].
Proof.
  cbv zeta. split; [ apply evict_spec | ]. repeat split; try reflexivity.
  - intros H. apply seen_recently_In in H. unfold is_duplicate. now rewrite H.
  - intros H. unfold is_duplicate.
    destruct (seen_recently text (evict cfg now detected)) eqn:E;
      [ | reflexivity ].
    apply seen_recently_In in E. destruct E as (seen & Hs).
    now destruct (H seen).
Qed.

(** Both cases on XYZ123 recorded at 0: asked about at 4, and at 6. *)
Lemma is_duplicate_window_witness :
  (exists seen, In ("XYZ123", seen) (evict config 4 [("XYZ123", 0)])) /\
  is_duplicate config 4 "XYZ123" [("XYZ123", 0)]
  = (true, evict config 4 [("XYZ123", 0)]) /\
  (forall seen, ~ In ("XYZ123", seen) (evict config 6 [("XYZ123", 0)])) /\
  is_duplicate config 6 "XYZ123" [("XYZ123", 0)]
  = (false, (evict config 6 [("XYZ123", 0)] ++ [("XYZ123", 6)])%list).
Proof.
  assert (Hin : exists seen, In ("XYZ123", seen) (evict config 4 [("XYZ123", 0)])).
  { exists 0. left. reflexivity. }
  assert (Hout : forall seen, ~ In ("XYZ123", seen) (evict config 6 [("XYZ123", 0)])).
  { intros seen []. }
  split; [ exact Hin | ].
  split.
  { exact (proj1 (proj2 (is_duplicate_window config 4 "XYZ123" [("XYZ123", 0)]))
             Hin). }
  split; [ exact Hout | ].
  exact (proj1 (proj2 (proj2
           (is_duplicate_window config 6 "XYZ123" [("XYZ123", 0)]))) Hout).
Defined.

(** C10.  After any sequence of calls, at whatever times, no two entries of
    the deque carry the same text. *)
Theorem run_texts_distinct (cfg : Config) (calls : list (float * string)) :
  NoDup (texts (run cfg calls)).
Proof.
  unfold run.
  assert (H : forall detected, NoDup (texts detected) ->
    NoDup (texts (fold_left
      (fun d c => snd (is_duplicate cfg (fst c) (snd c) d)) calls detected))).
  { induction calls as [ | [now text] calls IH ]; intros detected Hnd; cbn.
    - exact Hnd.
    - apply IH. now apply is_duplicate_NoDup. }
  apply H. constructor.
Qed.

End DuplicateWindow.

(** ** The frame-time window *)

Module FrameTimes.

Import PerformanceMonitor FrameTimesSpec.

Lemma skipn_S_tl {A : Type} (k : nat) (l : list A) :
  skipn (S k) l = tl (skipn k l).
Proof.
  revert l. induction k as [ | k IH ]; intros [ | a l ]; try reflexivity.
  cbn [skipn] in *. apply IH.
Qed.

Lemma record_all_snoc (cfg : Config) (durations : list float) (d : float) :
  record_all cfg (durations ++ [d]) =
  add_frame_time (record_all cfg durations) d.
Proof. unfold record_all. now rewrite fold_left_app. Qed.

(** The deque holds the last [maxlen] durations recorded. *)
Lemma record_all_items (cfg : Config) (durations : list float) :
  maxlen (record_all cfg durations) = PERFORMANCE_BUFFER_SIZE cfg /\
  items (record_all cfg durations) =
  skipn (List.length durations - PERFORMANCE_BUFFER_SIZE cfg) durations.
Proof.
  induction durations as [ | d durations [IHmax IH] ] using rev_ind.
  - split; reflexivity.
  - rewrite record_all_snoc. unfold add_frame_time, deque_append.
    cbn [maxlen items]. split; [ exact IHmax | ].
    rewrite IHmax, IH, length_app, length_app, length_skipn. cbn [List.length].
    set (n := List.length durations). set (cap := PERFORMANCE_BUFFER_SIZE cfg).
    destruct (Nat.ltb_spec cap (n - (n - cap) + 1)) as [Hfull | Hroom].
    + replace (n + 1 - cap) with (S (n - cap)) by lia.
      rewrite skipn_S_tl, skipn_app.
      replace (n - cap - List.length durations) with 0 by (subst n; lia).
      reflexivity.
    + replace (n + 1 - cap) with 0 by lia.
      replace (n - cap) with 0 by lia. reflexivity.
Qed.

(** Full or not, the deque takes the new duration at the right end; when it
    was full, the oldest duration leaves at the left end. *)
Lemma add_frame_time_items (frame_times : deque float) (duration : float) :
  List.length (items frame_times) <= maxlen frame_times ->
  items (add_frame_time frame_times duration)
  = if List.length (items frame_times) <? maxlen frame_times
    then (items frame_times ++ [duration])%list
    else (tl (items frame_times ++ [duration]))%list.
Proof.
  intros Hlen. unfold add_frame_time, deque_append. cbn [items].
  rewrite length_app. cbn [List.length].
  destruct (Nat.ltb_spec (maxlen frame_times) (List.length (items frame_times) + 1));
    destruct (Nat.ltb_spec (List.length (items frame_times)) (maxlen frame_times));
    try reflexivity; lia.
Qed.

Local Open Scope float_scope.



(** The compensated [sum] of CPython 3.12 gives the same total on the samples
    of the example, hence the same rate. *)
Example compensated_sum_same :
  sum_floats_compensated [0.1; 0.1; 0.2] = sum_floats [0.1; 0.1; 0.2].
Proof. reflexivity. Qed.

End FrameTimes.

(** ** The persistence gateway *)

Module Persistence.

Import DataManager PersistenceSpec.

Ltac run_stmt :=
  unfold save_detection, get_statistics, try_except, bind, attempt, call,
    commit, to_csv, select_today, ret.

(** [save_detection] always returns. *)
Lemma save_detection_returns (fails : faults) (row : plate_row) (st : storage) :
  exists saved st', save_detection fails row st = (Returns saved, st').
Proof.
  run_stmt.
  destruct (fails DbConnect), (fails DbInsert), (fails DbCommit),
    (fails DbClose), (fails CsvWrite); eexists; eexists; reflexivity.
Qed.

(** Without a fault, [get_statistics] returns the three aggregates over the
    rows of today. *)
Lemma get_statistics_no_fault (db : engine) (fails : faults) (today : string)
    (st : storage) :
  (forall o, In o query_ops -> fails o = false) ->
  get_statistics db fails today st =
  (let rows := filter (dated db today) (plates st) in
   (Returns (PyInt (count_rows rows), PyInt (count_distinct rows),
             or_zero (sql_avg db (map confidence rows))), st)).
Proof.
  intros Hok. run_stmt.
  rewrite !Hok by (cbn; tauto). reflexivity.
Qed.

(** C7.  When the four database operations of [save_detection] succeed and
    the export write raises, [save_detection] returns false (it does not
    raise), the row is in the [plates] table and the export file is as it
    was; for a row dated today the total of the next statistics query is one
    more than the total before the save. *)
Theorem export_failure_keeps_record (db : engine) (fails : faults)
    (today : string) (row : plate_row) (st : storage) :
  fails DbConnect = false ->
  fails DbInsert = false ->
  fails DbCommit = false ->
  fails DbClose = false ->
  fails CsvWrite = true ->
  dated db today row = true ->
  exists st',
    save_detection fails row st = (Returns false, st') /\
    plates st' = plates st ++ [row] /\
    csv_file st' = csv_file st /\
    exists total unique avg unique' avg',
      get_statistics db no_faults today st
      = (Returns (PyInt total, unique, avg), st) /\
      get_statistics db no_faults today st'
      = (Returns (PyInt (total + 1), unique', avg'), st').
Proof.
  intros Hconn Hins Hcommit Hclose Hcsv Htoday.
  exists (with_row st row). split; [ | split; [ | split ] ].
  - run_stmt. rewrite Hconn, Hins, Hcommit, Hclose, Hcsv. reflexivity.
  - reflexivity.
  - reflexivity.
  - rewrite !get_statistics_no_fault by reflexivity. cbv zeta.
    do 5 eexists. split; [ reflexivity | ].
    cbn [with_row plates]. rewrite filter_app. cbn [filter]. rewrite Htoday.
    unfold count_rows at 1. rewrite length_app. cbn [List.length].
    rewrite Nat2Z.inj_add. reflexivity.
Qed.

(** On the example store, with a fourth detection whose export fails. *)
Lemma export_failure_keeps_record_witness :
  export_fails DbConnect = false /\
  export_fails DbInsert = false /\
  export_fails DbCommit = false /\
  export_fails DbClose = false /\
  export_fails CsvWrite = true /\
  dated reference_engine "2026-03-14"
        (row_at "2026-03-14 09:30:00" "CD5678" 0.9) = true /\
  exists st',
    save_detection export_fails (row_at "2026-03-14 09:30:00" "CD5678" 0.9)
                   three_rows = (Returns false, st') /\
    plates st'
    = plates three_rows ++ [row_at "2026-03-14 09:30:00" "CD5678" 0.9] /\
    csv_file st' = csv_file three_rows /\
    exists total unique avg unique' avg',
      get_statistics reference_engine no_faults "2026-03-14" three_rows
      = (Returns (PyInt total, unique, avg), three_rows) /\
      get_statistics reference_engine no_faults "2026-03-14" st'
      = (Returns (PyInt (total + 1), unique', avg'), st').
Proof.
  repeat (split; [ reflexivity | ]).
  apply (export_failure_keeps_record reference_engine export_fails
           "2026-03-14" (row_at "2026-03-14 09:30:00" "CD5678" 0.9) three_rows);
    reflexivity.
Defined.



(** On the example store, on 2026-03-14: two detections, one plate, and the
    row of the day before is not counted; with a failing query, zeros. *)
Example statistics_three_rows :
  get_statistics reference_engine no_faults "2026-03-14" three_rows
  = (Returns (PyInt 2, PyInt 1, PyFloat 0.8125%float), three_rows) /\
  get_statistics reference_engine second_query_fails "2026-03-14" three_rows
  = (Returns (PyInt 0, PyInt 0, PyInt 0), three_rows).
Proof. split; reflexivity. Qed.

End Persistence.

(** ** Plate validation *)

Module Validation.

Import SmartOCR ValidationSpec.

Lemma match_dollar (fuel pos : nat) (s : string) :
  match_re fuel Dollar pos s (fun _ _ => true) = at_dollar s.
Proof.
  destruct s as [ | c [ | c' s ] ]; cbn [match_re at_dollar]; try reflexivity.
  now destruct (Ascii.eqb c newline).
Qed.

Lemma iterate_class_run (fuel : nat) (p : ascii -> bool) (s : string) :
  forall n pos,
    String.length s < n ->
    iterate (match_re fuel (Class p))
            (fun pos' s' => match_re fuel Dollar pos' s' (fun _ _ => true))
            n pos s
    = class_run p s.
Proof.
  induction s as [ | c rest IH ]; intros n pos Hn.
  - destruct n; reflexivity.
  - destruct n as [ | n ]; [ inversion Hn | ].
    cbn [iterate match_re class_run]. destruct (p c); [ | reflexivity ].
    replace (S pos =? pos) with false by (symmetry; apply Nat.eqb_neq; lia).
    rewrite IH by (cbn in Hn; lia).
    change (match rest with
            | EmptyString => true
            | String c0 EmptyString => if Ascii.eqb c0 newline then true else false
            | String c0 (String _ _) => false
            end) with (match_re fuel Dollar (S pos) rest (fun _ _ => true)).
    rewrite match_dollar. now destruct (class_run p rest).
Qed.

Lemma re_match_plate_pattern (s : string) :
  re_match plate_pattern s = class_run plate_char s.
Proof.
  unfold re_match, plate_pattern. cbn [match_re Nat.eqb].
  apply (iterate_class_run (S (String.length s))). lia.
Qed.

Lemma class_run_spec (p : ascii -> bool) (s : string) :
  class_run p s = true <->
  exists body,
    body <> EmptyString /\ all_chars p body = true /\
    (s = body \/ s = (body ++ String newline EmptyString)%string).
Proof.
  induction s as [ | c rest IH ]; cbn [class_run].
  - split; [ discriminate | ].
    intros (body & Hne & _ & [E | E]); destruct body; try congruence;
      discriminate.
  - rewrite andb_true_iff, orb_true_iff, IH. split.
    + intros (Hc & [(body & Hne & Hall & Hs) | Hd]).
      * exists (String c body). cbn. rewrite Hc, Hall.
        repeat split; [ discriminate | ].
        destruct Hs as [-> | ->]; [ now left | now right ].
      * exists (String c EmptyString). cbn. rewrite Hc.
        repeat split; [ discriminate | ].
        destruct rest as [ | c' [ | c'' rest ] ]; cbn in Hd; try discriminate.
        -- now left.
        -- apply Ascii.eqb_eq in Hd. subst. now right.
    + intros (body & Hne & Hall & Hs).
      destruct body as [ | b body ]; [ congruence | ].
      cbn in Hall. apply andb_true_iff in Hall. destruct Hall as [Hb Hall].
      assert (Hcb : c = b /\ (rest = body \/
                rest = (body ++ String newline EmptyString)%string)).
      { destruct Hs as [E | E]; cbn in E; inversion E; auto. }
      destruct Hcb as [-> Hrest]. split; [ exact Hb | ].
      destruct body as [ | b' body ].
      * right. destruct Hrest as [-> | ->]; reflexivity.
      * left. exists (String b' body). repeat split; [ discriminate | exact Hall | exact Hrest ].
Qed.

(** What [validate_plate] accepts: the length of the whole text is within the
    bounds, and the text is a non-empty run of uppercase letters and digits,
    possibly followed by one line feed. *)
Lemma validate_plate_spec (cfg : Config) (text : string) :
  validate_plate cfg text = true <->
  MIN_PLATE_LENGTH cfg <= String.length text <= MAX_PLATE_LENGTH cfg /\
  exists body,
    body <> EmptyString /\ all_chars plate_char body = true /\
    (text = body \/ text = (body ++ String newline EmptyString)%string).
Proof.
  unfold validate_plate. rewrite <- class_run_spec, <- re_match_plate_pattern.
  destruct (Nat.ltb_spec (String.length text) (MIN_PLATE_LENGTH cfg));
    destruct (Nat.ltb_spec (MAX_PLATE_LENGTH cfg) (String.length text));
    cbn [orb]; split; try discriminate; try tauto; try lia.
  all: intros [Hlen _]; lia.
Qed.

(** X8: [validate_plate] accepts exactly the non-empty well-formed texts and,
    besides, each run of uppercase letters and digits followed by one line
    feed, provided the length with the line feed is within the bounds. *)
Lemma validate_plate_well_formed (cfg : Config) (text : string) :
  validate_plate cfg text = true <->
  (text <> EmptyString /\ well_formed cfg text = true) \/
  (exists body,
      text = (body ++ String newline EmptyString)%string /\
      body <> EmptyString /\ all_chars plate_char body = true /\
      MIN_PLATE_LENGTH cfg <= String.length text <= MAX_PLATE_LENGTH cfg).
Proof.
  rewrite validate_plate_spec. unfold well_formed.
  rewrite !andb_true_iff, !Nat.leb_le. split.
  - intros (Hlen & body & Hne & Hall & [-> | ->]).
    + left. tauto.
    + right. exists body. tauto.
  - intros [(Hne & (Hmin & Hmax) & Hall) | (body & -> & Hne & Hall & Hlen)].
    + split; [ lia | ]. exists text. tauto.
    + split; [ exact Hlen | ]. exists body. tauto.
Qed.

(** C6 on the code: the five-character text ABCD followed by a line feed is
    accepted, although its last character is neither an uppercase letter nor
    a digit; ABCD itself is accepted, and lowercase, too short and too long
    texts are rejected. *)
Theorem validate_plate_accepts_trailing_newline :
  validate_plate config abcd_newline = true /\
  well_formed config abcd_newline = false /\
  String.length abcd_newline = 5 /\
  validate_plate config "ABCD" = true /\
  validate_plate config "AB123" = true /\
  validate_plate config "ab123" = false /\
  validate_plate config "AB" = false /\
  validate_plate config "ABCDEFGHIJK" = false.
Proof. repeat split. Qed.

End Validation.

(** ** The two save paths *)

Module SavePaths.

Import SmartOCR DuplicateManager DataManager Main SavePathsSpec.

Lemma persist_adds (P : plate_row -> Prop) (now : moment) (row : plate_row)
    (a : app) :
  P row -> adds P (disk a) (disk (snd (persist now row a))).
Proof.
  intros HP.
  unfold persist, adds, save_detection, try_except, bind, attempt, call,
    commit, to_csv, ret.
  destruct (fails now DbConnect), (fails now DbInsert), (fails now DbCommit),
    (fails now DbClose), (fails now CsvWrite); cbn; eauto.
Qed.

(** The frame loop persists only texts that pass [validate_plate], with the
    origin Auto. *)
Lemma process_plate_validates (cfg : Config) (now : moment) (p : plate) (a : app) :
  adds (fun row => validate_plate cfg (plate_number row) = true /\
                   location row = "Auto"%string)
       (disk a) (disk (snd (process_plate cfg now p a))).
Proof.
  set (P := fun row => _ /\ _).
  assert (Hsame : adds P (disk a) (disk a)) by now left.
  unfold process_plate.
  destruct ((w p * h p <? MIN_PLATE_AREA cfg)%Z
            || (MAX_PLATE_AREA cfg <? w p * h p)%Z); [ exact Hsame | ].
  unfold bind at 1, call.
  destruct (extract_text cfg (ocr p)) as [[[text conf] name] | ];
    [ | exact Hsame ].
  cbv beta iota.
  destruct (validate_plate cfg text) eqn:Hvalid; cbn [negb]; [ | exact Hsame ].
  unfold bind at 1, get_auto_save.
  destruct (auto_save a && ge (to_float conf) (AUTO_SAVE_THRESHOLD cfg));
    [ | exact Hsame ].
  unfold bind, check_duplicate.
  destruct (is_duplicate cfg (clock now) text (duplicate_mgr a))
    as [dup detected].
  destruct dup; [ exact Hsame | ].
  pose proof (persist_adds P now (plate_data now "Auto" (text, conf, name))
                (with_detected a detected)) as H.
  destruct (persist now (plate_data now "Auto" (text, conf, name))
              (with_detected a detected)) as [[saved | ] a2];
    apply H; split; [ exact Hvalid | reflexivity | exact Hvalid | reflexivity ].
Qed.

(** The manual path persists any non-empty text that is no duplicate, with
    the origin Manual. *)
Lemma manual_save_rows (cfg : Config) (now : moment) (plates : list plate)
    (a : app) :
  adds (fun row => plate_number row <> EmptyString /\
                   location row = "Manual"%string)
       (disk a) (disk (snd (manual_save cfg now plates a))).
Proof.
  set (P := fun row => _ /\ _).
  assert (Hsame : adds P (disk a) (disk a)) by now left.
  unfold manual_save. destruct plates as [ | first _ ]; [ exact Hsame | ].
  unfold bind at 1, call.
  destruct (extract_text cfg (ocr first)) as [[[text conf] name] | ];
    [ | exact Hsame ].
  cbv beta iota.
  destruct text as [ | c text ]; [ exact Hsame | ]. cbn [is_empty].
  unfold bind, check_duplicate.
  destruct (is_duplicate cfg (clock now) (String c text) (duplicate_mgr a))
    as [dup detected].
  destruct dup; [ exact Hsame | ].
  pose proof (persist_adds P now
                (plate_data now "Manual" (String c text, conf, name))
                (with_detected a detected)) as H.
  destruct (persist now (plate_data now "Manual" (String c text, conf, name))
              (with_detected a detected)) as [[saved | ] a2];
    apply H; split; try discriminate; reflexivity.
Qed.

(** C4 on the code: a manual save on a region whose fused text has eleven
    characters, or holds a hyphen, persists that text with origin Manual
    although [validate_plate] rejects it; the frame loop, on the same
    regions with auto-save on, persists nothing. *)
Theorem manual_save_skips_validation :
  extract_text config long_text
  = Returns ("ABCDEFGHIJK"%string, PyFloat 0.9, "Adaptive"%string) /\
  validate_plate config "ABCDEFGHIJK" = false /\
  plates (disk (snd (controls config noon key_s [plate_of long_text] started)))
  = [manual_row "ABCDEFGHIJK"] /\
  validate_plate config "AB-1234" = false /\
  plates (disk (snd (controls config noon key_space [plate_of hyphen_text] started)))
  = [manual_row "AB-1234"] /\
  plates (disk (snd (process_plate config noon (plate_of long_text) started)))
  = [] /\
  plates (disk (snd (process_plate config noon (plate_of hyphen_text) started)))
  = [].
Proof. repeat split. Qed.

End SavePaths.

(** ** Cleaned text *)

Module Text.

Import SmartOCR ValidationSpec TextSpec.

Lemma upper_char_facts (c : ascii) :
  isspace (upper_char c) = isspace c /\
  is_lower_letter (upper_char c) = false /\
  (Ascii.eqb (upper_char c) " " = Ascii.eqb c " ") /\
  (is_lower_letter c = false -> upper_char c = c) /\
  (Ascii.eqb c " " = true -> isspace c = true).
Proof.
  destruct c as [[] [] [] [] [] [] [] []]; vm_compute; repeat split; congruence.
Qed.

Lemma lstrip_solid (s : string) : solid (first_char (lstrip s)).
Proof.
  induction s as [ | c rest IH ]; cbn; [ exact I | ].
  destruct (isspace c) eqn:E; [ exact IH | exact E ].
Qed.

Lemma last_char_None (s : string) : last_char s = None -> s = EmptyString.
Proof. destruct s as [ | c rest ]; cbn; [ reflexivity | ]. destruct (last_char rest); discriminate. Qed.

Lemma rstrip_solid (s : string) : solid (last_char (rstrip s)).
Proof.
  induction s as [ | c rest IH ]; cbn [rstrip]; [ exact I | ].
  destruct (isspace c && is_empty (rstrip rest)) eqn:E; [ exact I | ].
  cbn [last_char]. destruct (last_char (rstrip rest)) as [d | ] eqn:L.
  - exact IH.
  - apply last_char_None in L. rewrite L in E. cbn in E.
    rewrite andb_true_r in E. exact E.
Qed.

Lemma rstrip_first (s : string) :
  solid (first_char s) -> solid (first_char (rstrip s)).
Proof.
  destruct s as [ | c rest ]; cbn [rstrip first_char solid]; [ trivial | ].
  intros E. rewrite E. exact E.
Qed.

Lemma strip_solid (s : string) :
  solid (first_char (strip s)) /\ solid (last_char (strip s)).
Proof.
  unfold strip. split; [ apply rstrip_first, lstrip_solid | apply rstrip_solid ].
Qed.

Lemma remove_spaces_chars (s : string) :
  all_chars (fun c => negb (Ascii.eqb c " ")) (remove_spaces s) = true.
Proof.
  induction s as [ | c rest IH ]; cbn [remove_spaces]; [ reflexivity | ].
  destruct (Ascii.eqb c " ") eqn:E; [ exact IH | ].
  cbn [all_chars]. now rewrite E, IH.
Qed.

Lemma remove_spaces_first (s : string) :
  solid (first_char s) -> solid (first_char (remove_spaces s)) /\
  (s <> EmptyString -> remove_spaces s <> EmptyString).
Proof.
  destruct s as [ | c rest ]; cbn [remove_spaces first_char solid];
    [ split; [ trivial | congruence ] | ].
  intros E. destruct (Ascii.eqb c " ") eqn:S.
  - apply (proj2 (proj2 (proj2 (proj2 (upper_char_facts c))))) in S. congruence.
  - split; [ exact E | discriminate ].
Qed.

Lemma space_isspace (c : ascii) : Ascii.eqb c " " = true -> isspace c = true.
Proof. apply upper_char_facts. Qed.

Lemma remove_spaces_last_char (s : string) (e : ascii) :
  last_char s = Some e -> isspace e = false ->
  last_char (remove_spaces s) = Some e.
Proof.
  induction s as [ | a rest IH ]; cbn [last_char remove_spaces]; [ discriminate | ].
  destruct (last_char rest) as [d | ] eqn:L; intros E He; injection E as <-.
  - specialize (IH eq_refl He).
    destruct (Ascii.eqb a " "); [ exact IH | ].
    cbn [last_char]. now rewrite IH.
  - apply last_char_None in L. subst rest.
    destruct (Ascii.eqb a " ") eqn:S.
    + apply space_isspace in S. congruence.
    + reflexivity.
Qed.

Lemma remove_spaces_last (s : string) :
  solid (last_char s) -> solid (last_char (remove_spaces s)).
Proof.
  destruct (last_char s) as [e | ] eqn:L; cbn [solid].
  - intros He. now rewrite (remove_spaces_last_char s e L He).
  - intros _. apply last_char_None in L. now subst s.
Qed.

Lemma upper_first (s : string) :
  first_char (upper s) = option_map upper_char (first_char s).
Proof. destruct s; reflexivity. Qed.

Lemma upper_last (s : string) :
  last_char (upper s) = option_map upper_char (last_char s).
Proof.
  induction s as [ | c rest IH ]; cbn [upper last_char]; [ reflexivity | ].
  rewrite IH. now destruct (last_char rest).
Qed.

Lemma solid_upper (e : option ascii) : solid e -> solid (option_map upper_char e).
Proof.
  destruct e as [c | ]; cbn; [ | trivial ].
  now rewrite (proj1 (upper_char_facts c)).
Qed.

Lemma upper_chars (s : string) :
  all_chars (fun c => negb (Ascii.eqb c " ")) s = true ->
  all_chars clean_char (upper s) = true.
Proof.
  induction s as [ | c rest IH ]; cbn [upper all_chars]; [ reflexivity | ].
  rewrite andb_true_iff. intros [Hc Hrest]. rewrite (IH Hrest), andb_true_r.
  unfold clean_char. destruct (upper_char_facts c) as (_ & Hlow & Hsp & _).
  now rewrite Hlow, Hsp, Hc.
Qed.

Lemma clean_is_cleaned (s : string) : cleaned (clean s).
Proof.
  unfold cleaned, clean. destruct (strip_solid s) as [Hfirst Hlast].
  split; [ apply upper_chars, remove_spaces_chars | ].
  rewrite upper_first, upper_last. split; apply solid_upper.
  - now apply remove_spaces_first.
  - now apply remove_spaces_last.
Qed.

Lemma lstrip_id (s : string) : solid (first_char s) -> lstrip s = s.
Proof. destruct s as [ | c rest ]; cbn; [ reflexivity | ]. now intros ->. Qed.

Lemma rstrip_id (s : string) : solid (last_char s) -> rstrip s = s.
Proof.
  induction s as [ | c rest IH ]; cbn [rstrip last_char]; [ reflexivity | ].
  destruct (last_char rest) as [d | ] eqn:L; cbn [solid]; intros H.
  - rewrite (IH H). destruct rest; [ discriminate | ].
    cbn [is_empty]. now rewrite andb_false_r.
  - apply last_char_None in L. subst rest. cbn. now rewrite H.
Qed.

Lemma cleaned_fixed (s : string) : cleaned s -> clean s = s.
Proof.
  intros (Hchars & Hfirst & Hlast). unfold clean, strip.
  rewrite (lstrip_id s Hfirst), (rstrip_id s Hlast).
  clear Hfirst Hlast. induction s as [ | c rest IH ]; [ reflexivity | ].
  cbn [all_chars] in Hchars. apply andb_true_iff in Hchars.
  destruct Hchars as [Hc Hrest]. unfold clean_char in Hc.
  apply andb_true_iff in Hc. destruct Hc as [Hsp Hlow].
  apply negb_true_iff in Hsp, Hlow.
  cbn [remove_spaces]. rewrite Hsp. cbn [upper]. rewrite (IH Hrest).
  now rewrite (proj1 (proj2 (proj2 (proj2 (upper_char_facts c)))) Hlow).
Qed.

(** X4: Cleaning a text leaves no space, no lowercase letter and no whitespace
    at either end, and cleaning a cleaned text changes nothing. *)
Theorem clean_normalizes (s : string) :
  cleaned (clean s) /\ clean (clean s) = clean s.
Proof.
  split; [ apply clean_is_cleaned | apply cleaned_fixed, clean_is_cleaned ].
Qed.

End Text.

(** ** The shape of a fused detection *)

Module Shape.

Import SmartOCR FusionSpec ValidationSpec TextSpec ShapeSpec.

Lemma max_by_In {A : Type} (key : A -> float) (first : A) (rest : list A) :
  In (max_by key first rest) (first :: rest).
Proof.
  unfold max_by. revert first.
  induction rest as [ | x rest IH ]; intros first; cbn [fold_left].
  - now left.
  - destruct (IH (if gt (key x) (key first) then x else first)) as [E | H].
    + rewrite <- E. destruct (gt (key x) (key first)); [ right | ]; now left.
    + right. now right.
Qed.

Lemma read_data_usable (cfg : Config) (m : method) (data : list token)
    (text : string) (conf : float) (name : string) :
  read_data cfg (method_name m) data = Returns (Some (text, conf, name)) ->
  usable cfg text name.
Proof.
  unfold read_data.
  destruct (scan_tokens data EmptyString []) as [[raw confs] | ];
    [ | discriminate ].
  destruct (long_enough cfg (clean raw)) eqn:Hlong; [ | discriminate ].
  intros E. injection E as <- _ <-.
  unfold long_enough in Hlong. apply andb_true_iff in Hlong.
  destruct Hlong as [Hne Hlen]. apply Nat.leb_le in Hlen.
  repeat split.
  - unfold method_names. apply in_map. destruct m; cbn; auto.
  - intros E. rewrite E in Hne. discriminate.
  - exact Hlen.
  - apply Text.clean_is_cleaned.
  - apply Text.clean_is_cleaned.
  - apply Text.clean_is_cleaned.
Qed.

Lemma in_until_raise (l : list (outcome (option reading))) (r : reading) :
  In r (until_raise l) -> In (Returns (Some r)) l.
Proof.
  induction l as [ | [[r' | ] | ] l IH ]; cbn; try tauto.
  intros [ -> | H ]; [ now left | right; exact (IH H) ].
Qed.

(** Every collected reading is usable. *)
Lemma collected_usable (cfg : Config) (ocr : region_ocr)
    (text : string) (conf : float) (name : string) :
  In (text, conf, name) (snd (collect cfg ocr)) -> usable cfg text name.
Proof.
  rewrite Fusion.collect_run. cbn [snd]. rewrite in_flat_map.
  intros (m & _ & H). unfold variant_readings in H.
  destruct (preprocess ocr m); [ | destruct H ].
  apply in_until_raise, in_map_iff in H. destruct H as (c & E & _).
  unfold contribution in E.
  destruct (image_to_data ocr m c) as [data | ]; [ | discriminate ].
  exact (read_data_usable cfg m data text conf name E).
Qed.

(** What [extract_text] returns: "no result", or one of the collected
    readings. *)
Lemma extract_text_cases (cfg : Config) (ocr : region_ocr) :
  extract_text cfg ocr = Returns no_result \/
  exists text conf name,
    extract_text cfg ocr = Returns (text, PyFloat conf, name) /\
    In (text, conf, name) (snd (collect cfg ocr)).
Proof.
  rewrite Fusion.extract_text_run.
  destruct (snd (collect cfg ocr)) as [ | first rest ]; [ now left | right ].
  pose proof (max_by_In reading_conf first rest) as Hin.
  cbn [fuse]. destruct (max_by reading_conf first rest) as [[text conf] name].
  exists text, conf, name. split; [ reflexivity | exact Hin ].
Qed.

(** No text that [extract_text] returns ends with whitespace. *)
Lemma fused_text_solid (cfg : Config) (ocr : region_ocr)
    (text : string) (conf : number) (name : string) :
  extract_text cfg ocr = Returns (text, conf, name) -> solid (last_char text).
Proof.
  intros E.
  destruct (extract_text_cases cfg ocr) as [H | (t & c & n & H & Hin)];
    rewrite H in E; injection E as <- _ _.
  - exact I.
  - apply (collected_usable cfg ocr t c n Hin).
Qed.

(** A text that [extract_text] returns is empty or usable. *)
Lemma fused_usable (cfg : Config) (ocr : region_ocr)
    (text : string) (conf : number) (name : string) :
  extract_text cfg ocr = Returns (text, conf, name) ->
  text <> EmptyString -> usable cfg text name.
Proof.
  intros E Hne.
  destruct (extract_text_cases cfg ocr) as [H | (t & c & n & H & Hin)];
    rewrite H in E; injection E as <- _ <-.
  - congruence.
  - exact (collected_usable cfg ocr t c n Hin).
Qed.

(** X7: [extract_text] always returns, and what it returns is the "no result"
    triple or a collected reading: a float confidence, the name of one of the
    three variants, and a cleaned text that is not empty and has at least
    [MIN_PLATE_LENGTH] characters. *)
Theorem extract_text_shape (cfg : Config) (ocr : region_ocr) :
  extract_text cfg ocr = Returns no_result \/
  exists text conf name,
    extract_text cfg ocr = Returns (text, PyFloat conf, name) /\
    In (text, conf, name) (snd (collect cfg ocr)) /\
    usable cfg text name.
Proof.
  destruct (extract_text_cases cfg ocr) as [H | (text & conf & name & H & Hin)];
    [ now left | right ].
  exists text, conf, name. repeat split; try assumption;
    apply (collected_usable cfg ocr text conf name Hin).
Qed.

End Shape.

(** ** Fusion, variant by variant *)

Module Variants.

Import SmartOCR FusionSpec ShapeSpec.

Lemma until_raise_length (l : list (outcome (option reading))) :
  List.length (until_raise l) <= List.length l.
Proof.
  induction l as [ | [[r | ] | ] l IH ]; cbn; lia.
Qed.

Lemma variant_readings_named (cfg : Config) (ocr : region_ocr) (m : method) :
  List.length (variant_readings cfg ocr m) <= 2 /\
  Forall (fun r : reading => snd r = method_name m) (variant_readings cfg ocr m).
Proof.
  unfold variant_readings. destruct (preprocess ocr m); [ | cbn; auto ].
  split.
  - etransitivity; [ apply until_raise_length | ]. rewrite length_map. reflexivity.
  - apply Forall_forall. intros [[text conf] name] H.
    apply Shape.in_until_raise, in_map_iff in H. destruct H as (c & E & _).
    unfold contribution, read_data in E.
    destruct (image_to_data ocr m c) as [data | ]; [ | discriminate ].
    destruct (scan_tokens data EmptyString []) as [[raw confs] | ];
      [ | discriminate ].
    destruct (long_enough cfg (clean raw)); [ | discriminate ].
    injection E as _ _ <-. reflexivity.
Qed.

(** X6: The collected readings come in three groups, in the order of the
    variants: at most two readings named Adaptive, then at most two named Otsu,
    then at most two named CLAHE. *)
Theorem collect_by_variant (cfg : Config) (ocr : region_ocr) :
  exists adaptive otsu clahe,
    collect cfg ocr = (Returns tt, adaptive ++ otsu ++ clahe) /\
    List.length adaptive <= 2 /\ List.length otsu <= 2 /\
    List.length clahe <= 2 /\
    Forall (fun r : reading => snd r = "Adaptive"%string) adaptive /\
    Forall (fun r : reading => snd r = "Otsu"%string) otsu /\
    Forall (fun r : reading => snd r = "CLAHE"%string) clahe.
Proof.
  exists (variant_readings cfg ocr Adaptive), (variant_readings cfg ocr Otsu),
    (variant_readings cfg ocr CLAHE).
  split.
  - rewrite Fusion.collect_run. cbn [methods flat_map]. now rewrite app_nil_r.
  - pose proof (variant_readings_named cfg ocr Adaptive) as [].
    pose proof (variant_readings_named cfg ocr Otsu) as [].
    pose proof (variant_readings_named cfg ocr CLAHE) as [].
    repeat split; assumption.
Qed.

End Variants.

(** ** Validation of a fused text *)

Module FusedText.

Import SmartOCR ValidationSpec TextSpec ShapeSpec.

Lemma last_char_snoc (s : string) (c : ascii) :
  last_char (s ++ String c EmptyString) = Some c.
Proof.
  induction s as [ | a s IH ]; cbn [append last_char]; [ reflexivity | ].
  now rewrite IH.
Qed.

(** A cleaned text does not end with a line feed, so [validate_plate]
    accepts it exactly when it is a non-empty well-formed plate. *)
Lemma validate_cleaned (cfg : Config) (text : string) :
  solid (last_char text) ->
  validate_plate cfg text = true <->
  text <> EmptyString /\ well_formed cfg text = true.
Proof.
  intros Hlast. rewrite Validation.validate_plate_spec. unfold well_formed.
  rewrite !andb_true_iff, !Nat.leb_le. split.
  - intros (Hlen & body & Hne & Hall & [-> | ->]); [ tauto | ].
    rewrite last_char_snoc in Hlast. cbn in Hlast. discriminate.
  - intros (Hne & (Hmin & Hmax) & Hall). split; [ lia | ].
    exists text. tauto.
Qed.

(** X9: On a text that [extract_text] returned, [validate_plate] decides
    exactly whether the text is a non-empty well-formed plate: a length within
    the bounds, uppercase letters and digits only. *)
Theorem validate_fused_text (cfg : Config) (ocr : region_ocr)
    (text : string) (conf : number) (name : string) :
  extract_text cfg ocr = Returns (text, conf, name) ->
  (validate_plate cfg text = true <->
   text <> EmptyString /\ well_formed cfg text = true).
Proof.
  intros E. apply validate_cleaned.
  exact (Shape.fused_text_solid cfg ocr text conf name E).
Qed.

(** On the eleven-character reading: rejected, being too long. *)
Lemma validate_fused_text_witness :
  extract_text config SavePathsSpec.long_text
  = Returns ("ABCDEFGHIJK"%string, PyFloat 0.9, "Adaptive"%string) /\
  (validate_plate config "ABCDEFGHIJK" = true <->
   "ABCDEFGHIJK"%string <> EmptyString /\
   well_formed config "ABCDEFGHIJK" = true).
Proof.
  split; [ reflexivity | ].
  apply (validate_fused_text config SavePathsSpec.long_text "ABCDEFGHIJK"
           (PyFloat 0.9) "Adaptive").
  reflexivity.
Defined.

End FusedText.

(** ** More on the duplicate window *)

Module Window.

Import DuplicateManager DuplicateSpec.

(** An entry that has not expired survives eviction, wherever it stands. *)
Lemma unexpired_remains (cfg : Config) (now : float) (detected : list entry)
    (text : string) (seen : float) :
  In (text, seen) detected ->
  expired cfg now seen = false ->
  In (text, seen) (evict cfg now detected).
Proof.
  intros Hin Hfresh.
  destruct (DuplicateWindow.evict_spec cfg now detected) as (old & Hsplit & Hold & _).
  rewrite Hsplit in Hin. apply in_app_or in Hin. destruct Hin as [Hin | Hin];
    [ | exact Hin ].
  apply (proj1 (Forall_forall _ _) Hold) in Hin. cbn [snd] in Hin. congruence.
Qed.

(** Eviction does nothing on a deque whose leftmost entry has not expired. *)
Lemma evict_fixed (cfg : Config) (now : float) (detected : list entry) :
  match detected with
  | [] => True
  | e :: _ => expired cfg now (snd e) = false
  end ->
  evict cfg now detected = detected.
Proof.
  destruct detected as [ | [plate seen] rest ]; [ reflexivity | ].
  cbn [snd evict]. unfold expired. now intros ->.
Qed.

Lemma evict_twice (cfg : Config) (now : float) (detected : list entry) :
  evict cfg now (evict cfg now detected) = evict cfg now detected.
Proof.
  apply evict_fixed.
  now destruct (DuplicateWindow.evict_spec cfg now detected) as (_ & _ & _ & H).
Qed.

Lemma unexpired_is_duplicate (cfg : Config) (now : float)
    (detected : list entry) (text : string) (seen : float) :
  In (text, seen) detected ->
  expired cfg now seen = false ->
  is_duplicate cfg now text detected = (true, evict cfg now detected).
Proof.
  intros Hin Hfresh. unfold is_duplicate.
  assert (H : seen_recently text (evict cfg now detected) = true).
  { apply DuplicateWindow.seen_recently_In. exists seen.
    now apply unexpired_remains. }
  now rewrite H.
Qed.

(** X10: A text is reported as a duplicate whenever the deque holds an entry
    for it that has not expired, wherever that entry stands; and it is reported
    as a duplicate only if the deque held an entry for it. *)
Theorem duplicate_iff_recorded (cfg : Config) (now : float)
    (detected : list entry) (text : string) :
  ((exists seen, In (text, seen) detected /\ expired cfg now seen = false) ->
   is_duplicate cfg now text detected = (true, evict cfg now detected)) /\
  (fst (is_duplicate cfg now text detected) = true ->
   exists seen, In (text, seen) detected).
Proof.
  split.
  - intros (seen & Hin & Hfresh). now apply (unexpired_is_duplicate cfg now detected text seen).
  - unfold is_duplicate.
    destruct (seen_recently text (evict cfg now detected)) eqn:E;
      [ intros _ | discriminate ].
    apply DuplicateWindow.seen_recently_In in E. destruct E as (seen & Hin).
    exists seen.
    destruct (DuplicateWindow.evict_spec cfg now detected) as (old & Hsplit & _).
    rewrite Hsplit. apply in_or_app. now right.
Qed.

(** X11: After a call, whatever its answer and whatever the clock reading,
    the deque holds an entry for the text and is at most one entry longer;
    and when the clock reading is not older than itself by more than the
    window, asking again at the same reading answers true and changes
    nothing. *)
Theorem asked_twice (cfg : Config) (now : float) (detected : list entry)
    (text : string) :
  let after := snd (is_duplicate cfg now text detected) in
  In text (texts after) /\
  List.length after <= S (List.length detected) /\
  (expired cfg now now = false ->
   is_duplicate cfg now text after = (true, after)).
Proof.
  cbv zeta.
  destruct (DuplicateWindow.evict_spec cfg now detected)
    as (old & Hsplit & _ & Hhead).
  assert (Hlen : List.length (evict cfg now detected) <= List.length detected).
  { rewrite Hsplit at 2. rewrite length_app. lia. }
  assert (Hcall : is_duplicate cfg now text detected
                  = if seen_recently text (evict cfg now detected)
                    then (true, evict cfg now detected)
                    else (false, evict cfg now detected ++ [(text, now)]))
    by reflexivity.
  rewrite Hcall.
  destruct (seen_recently text (evict cfg now detected)) eqn:E; cbn [snd].
  - split; [ now apply DuplicateWindow.seen_recently_texts | ].
    split; [ lia | ]. intros _.
    unfold is_duplicate. rewrite evict_twice. now rewrite E.
  - split; [ unfold texts; rewrite map_app; apply in_or_app; right; now left | ].
    split; [ rewrite length_app; cbn; lia | ]. intros Hnow.
    rewrite (unexpired_is_duplicate cfg now _ text now);
      [ | apply in_or_app; right; now left | exact Hnow ].
    f_equal. apply evict_fixed.
    destruct (evict cfg now detected) as [ | e rest ]; cbn [app snd];
      [ exact Hnow | exact Hhead ].
Qed.

(** On XYZ123 recorded at 0, asked about a new text twice at 4. *)
Lemma asked_twice_witness :
  expired config 4 4 = false /\
  let after :=
    snd (is_duplicate config 4 "AB1234" [("XYZ123"%string, 0%float)]) in
  In "AB1234"%string (texts after) /\
  List.length after <= 2 /\
  is_duplicate config 4 "AB1234" after = (true, after).
Proof.
  split; [ reflexivity | ].
  destruct (asked_twice config 4 [("XYZ123"%string, 0%float)] "AB1234")
    as (Hin & Hlen & Hagain).
  split; [ exact Hin | ].
  split; [ exact Hlen | ].
  apply Hagain. reflexivity.
Defined.

End Window.

(** ** What the two save paths persist *)

Module Persisted.

Import SmartOCR DuplicateManager DataManager Main.
Import ValidationSpec ShapeSpec SavePathsSpec DuplicateSpec PersistSpec.

(** [persist] touches the sinks only. *)
Lemma persist_keeps (now : moment) (row : plate_row) (a : app) :
  auto_save (snd (persist now row a)) = auto_save a /\
  show_dashboard (snd (persist now row a)) = show_dashboard a /\
  duplicate_mgr (snd (persist now row a)) = duplicate_mgr a.
Proof.
  unfold persist.
  destruct (save_detection (fails now) row (disk a)) as [saved d]. cbn. auto.
Qed.

(** The frame loop on a plate whose text was fused as [text]. *)
Lemma process_plate_run (cfg : Config) (now : moment) (p : plate) (a : app)
    (text : string) (conf : number) (name : string) :
  extract_text cfg (ocr p) = Returns (text, conf, name) ->
  process_plate cfg now p a =
  if area_ok cfg p && validate_plate cfg text && auto_save a
     && ge (to_float conf) (AUTO_SAVE_THRESHOLD cfg)
  then
    let '(dup, detected) :=
      is_duplicate cfg (clock now) text (duplicate_mgr a) in
    if dup then (Returns tt, with_detected a detected)
    else
      let '(saved, a') :=
        persist now (plate_data now "Auto" (text, conf, name))
                (with_detected a detected) in
      (match saved with Returns _ => Returns tt | Raises => Raises end, a')
  else (Returns tt, a).
Proof.
  intros E. unfold process_plate, area_ok.
  destruct ((w p * h p <? MIN_PLATE_AREA cfg)%Z
            || (MAX_PLATE_AREA cfg <? w p * h p)%Z); [ reflexivity | ].
  unfold bind at 1, call. rewrite E. cbv beta iota. cbn [negb andb].
  destruct (validate_plate cfg text); cbn [negb andb]; [ | reflexivity ].
  unfold bind at 1, get_auto_save.
  destruct (auto_save a); cbn [andb]; [ | reflexivity ].
  destruct (ge (to_float conf) (AUTO_SAVE_THRESHOLD cfg)); [ | reflexivity ].
  unfold bind, check_duplicate.
  destruct (is_duplicate cfg (clock now) text (duplicate_mgr a)) as [[] detected];
    [ reflexivity | ].
  destruct (persist now (plate_data now "Auto" (text, conf, name))
              (with_detected a detected)) as [[saved | ] a']; reflexivity.
Qed.

(** The manual branch on a first plate whose text was fused as [text]. *)
Lemma manual_save_run (cfg : Config) (now : moment) (first : plate)
    (rest : list plate) (a : app)
    (text : string) (conf : number) (name : string) :
  extract_text cfg (ocr first) = Returns (text, conf, name) ->
  manual_save cfg now (first :: rest) a =
  if is_empty text then (Returns tt, a)
  else
    let '(dup, detected) :=
      is_duplicate cfg (clock now) text (duplicate_mgr a) in
    if dup then (Returns tt, with_detected a detected)
    else
      let '(saved, a') :=
        persist now (plate_data now "Manual" (text, conf, name))
                (with_detected a detected) in
      (match saved with Returns _ => Returns tt | Raises => Raises end, a').
Proof.
  intros E. unfold manual_save. unfold bind at 1, call. rewrite E.
  cbv beta iota. destruct (is_empty text); [ reflexivity | ].
  unfold bind, check_duplicate.
  destruct (is_duplicate cfg (clock now) text (duplicate_mgr a)) as [[] detected];
    [ reflexivity | ].
  destruct (persist now (plate_data now "Manual" (text, conf, name))
              (with_detected a detected)) as [[saved | ] a']; reflexivity.
Qed.

(** X18: The frame loop adds at most one row for a plate, and only a row whose
    plate text is a non-empty well-formed plate fused from that plate with a
    confidence of at least the auto-save threshold, stamped with the time of
    the save, with origin Auto and processing time 0. It never changes the two
    flags, and with auto-save off it changes nothing at all. *)
Theorem process_plate_persists (cfg : Config) (now : moment) (p : plate)
    (a : app) :
  let a' := snd (process_plate cfg now p a) in
  adds (auto_row cfg now p) (disk a) (disk a') /\
  auto_save a' = auto_save a /\
  show_dashboard a' = show_dashboard a /\
  (auto_save a = false -> a' = a).
Proof.
  cbv zeta.
  assert (Hsame : adds (auto_row cfg now p) (disk a) (disk a)) by now left.
  destruct (extract_text cfg (ocr p)) as [[[text conf] name] | ] eqn:E.
  - rewrite (process_plate_run cfg now p a text conf name E).
    destruct (area_ok cfg p); cbn [andb]; [ | cbn; auto ].
    destruct (validate_plate cfg text) eqn:Hvalid; cbn [andb]; [ | cbn; auto ].
    destruct (auto_save a) eqn:Hauto; cbn [andb]; [ | cbn; auto ].
    destruct (ge (to_float conf) (AUTO_SAVE_THRESHOLD cfg)) eqn:Hconf;
      [ | cbn; auto ].
    destruct (is_duplicate cfg (clock now) text (duplicate_mgr a))
      as [[] detected]; [ cbn; repeat split; auto; discriminate | ].
    set (row := plate_data now "Auto" (text, conf, name)).
    pose proof (persist_keeps now row (with_detected a detected)) as (K1 & K2 & _).
    pose proof (SavePaths.persist_adds (auto_row cfg now p) now row
                  (with_detected a detected)) as Hadds.
    destruct (persist now row (with_detected a detected)) as [saved a'].
    cbn [snd] in *.
    repeat split; [ | rewrite K1; exact Hauto | exact K2 | discriminate ].
    apply Hadds. unfold auto_row, row. cbn.
    apply FusedText.validate_cleaned in Hvalid;
      [ | exact (Shape.fused_text_solid cfg (ocr p) text conf name E) ].
    repeat split; tauto.
  - unfold process_plate. 
    destruct ((w p * h p <? MIN_PLATE_AREA cfg)%Z
              || (MAX_PLATE_AREA cfg <? w p * h p)%Z); [ cbn; auto | ].
    unfold bind, call. rewrite E. cbn. auto.
Qed.

(** The manual branch never changes the two flags. *)
Lemma manual_save_flags (cfg : Config) (now : moment) (plates : list plate)
    (a : app) :
  auto_save (snd (manual_save cfg now plates a)) = auto_save a /\
  show_dashboard (snd (manual_save cfg now plates a)) = show_dashboard a.
Proof.
  destruct plates as [ | first rest ]; [ now split | ].
  destruct (extract_text cfg (ocr first)) as [[[text conf] name] | ] eqn:E.
  - rewrite (manual_save_run cfg now first rest a text conf name E).
    destruct (is_empty text); [ now split | ].
    destruct (is_duplicate cfg (clock now) text (duplicate_mgr a))
      as [[] detected]; [ now split | ].
    pose proof (persist_keeps now (plate_data now "Manual" (text, conf, name))
                  (with_detected a detected)) as (K1 & K2 & _).
    destruct (persist now (plate_data now "Manual" (text, conf, name))
                (with_detected a detected)) as [saved a'].
    cbn [snd] in *. now split.
  - unfold manual_save, bind, call. rewrite E. now split.
Qed.

(** X19: The manual branch adds at most one row, and only a row for the first
    plate of the frame: its text is what fusion returned for that plate, so not
    empty, cleaned and at least [MIN_PLATE_LENGTH] long, stamped with the time
    of the save, with origin Manual and processing time 0. It never changes the
    two flags, and without a plate it changes nothing. *)
Theorem manual_save_persists (cfg : Config) (now : moment) (first : plate)
    (rest : list plate) (a : app) :
  let a' := snd (manual_save cfg now (first :: rest) a) in
  adds (manual_row_of cfg now first) (disk a) (disk a') /\
  auto_save a' = auto_save a /\
  show_dashboard a' = show_dashboard a /\
  snd (manual_save cfg now [] a) = a.
Proof.
  cbv zeta.
  assert (Hsame : adds (manual_row_of cfg now first) (disk a) (disk a))
    by now left.
  destruct (extract_text cfg (ocr first)) as [[[text conf] name] | ] eqn:E.
  - rewrite (manual_save_run cfg now first rest a text conf name E).
    destruct text as [ | c text ]; cbn [is_empty]; [ cbn; auto | ].
    destruct (is_duplicate cfg (clock now) (String c text) (duplicate_mgr a))
      as [[] detected]; [ cbn; auto | ].
    set (row := plate_data now "Manual" (String c text, conf, name)).
    pose proof (persist_keeps now row (with_detected a detected)) as (K1 & K2 & _).
    pose proof (SavePaths.persist_adds (manual_row_of cfg now first) now row
                  (with_detected a detected)) as Hadds.
    destruct (persist now row (with_detected a detected)) as [saved a'].
    cbn [snd] in *. repeat split; [ | exact K1 | exact K2 ].
    apply Hadds. unfold manual_row_of, row. cbn.
    split; [ | repeat split; try reflexivity; exact E ].
    apply (Shape.fused_usable cfg (ocr first) _ conf name E). discriminate.
  - unfold manual_save, bind, call. rewrite E. cbn. auto.
Qed.

(** X20: While the duplicate manager holds an entry for the fused text of a
    plate that has not expired, neither path writes anything for that plate. *)
Theorem recorded_text_not_saved (cfg : Config) (now : moment) (p : plate)
    (rest : list plate) (a : app)
    (text : string) (conf : number) (name : string) (seen : float) :
  extract_text cfg (ocr p) = Returns (text, conf, name) ->
  In (text, seen) (duplicate_mgr a) ->
  expired cfg (clock now) seen = false ->
  disk (snd (process_plate cfg now p a)) = disk a /\
  disk (snd (manual_save cfg now (p :: rest) a)) = disk a.
Proof.
  intros E Hin Hfresh.
  rewrite (process_plate_run cfg now p a text conf name E),
    (manual_save_run cfg now p rest a text conf name E),
    (Window.unexpired_is_duplicate cfg (clock now) (duplicate_mgr a) text seen
       Hin Hfresh).
  split.
  - now destruct (area_ok cfg p && validate_plate cfg text && auto_save a
                  && ge (to_float conf) (AUTO_SAVE_THRESHOLD cfg)).
  - now destruct (is_empty text).
Qed.

(** On AB1234, recorded two seconds before noon. *)
Lemma recorded_text_not_saved_witness :
  extract_text config (ocr (plate_of RetrySpec.good_text))
  = Returns ("AB1234"%string, PyFloat 0.9, "Adaptive"%string) /\
  In ("AB1234"%string, 998%float) (duplicate_mgr RetrySpec.recorded) /\
  expired config (clock noon) 998 = false /\
  disk (snd (process_plate config noon (plate_of RetrySpec.good_text)
               RetrySpec.recorded))
  = disk RetrySpec.recorded /\
  disk (snd (manual_save config noon [plate_of RetrySpec.good_text]
               RetrySpec.recorded))
  = disk RetrySpec.recorded.
Proof.
  split; [ reflexivity | ].
  split; [ now left | ].
  split; [ reflexivity | ].
  apply (recorded_text_not_saved config noon (plate_of RetrySpec.good_text) []
           RetrySpec.recorded "AB1234" (PyFloat 0.9) "Adaptive" 998).
  - reflexivity.
  - now left.
  - reflexivity.
Defined.

(** X21: A manual save whose text was no duplicate records the text before it
    writes. So when a second manual save of the same plate comes while that
    record has not expired, it writes nothing, whatever became of the first
    write: if the database could not be reached the first time, the detection
    is in neither sink after both attempts. *)
Theorem failed_save_blocks_retry (cfg : Config) (now1 now2 : moment)
    (first : plate) (rest : list plate) (a : app)
    (text : string) (conf : number) (name : string) :
  extract_text cfg (ocr first) = Returns (text, conf, name) ->
  text <> EmptyString ->
  fst (is_duplicate cfg (clock now1) text (duplicate_mgr a)) = false ->
  expired cfg (clock now2) (clock now1) = false ->
  let a1 := snd (manual_save cfg now1 (first :: rest) a) in
  let a2 := snd (manual_save cfg now2 (first :: rest) a1) in
  disk a2 = disk a1 /\
  (fails now1 DbConnect = true -> disk a2 = disk a).
Proof.
  intros E Hne Hnew Hfresh. cbv zeta.
  rewrite !(manual_save_run cfg _ first rest _ text conf name E).
  destruct text as [ | c text ]; [ congruence | ]. cbn [is_empty].
  set (T := String c text) in *.
  assert (Hdup : is_duplicate cfg (clock now1) T (duplicate_mgr a)
                 = (false, evict cfg (clock now1) (duplicate_mgr a)
                           ++ [(T, clock now1)])).
  { unfold is_duplicate in *.
    destruct (seen_recently T (evict cfg (clock now1) (duplicate_mgr a)));
      [ discriminate | reflexivity ]. }
  rewrite Hdup.
  set (detected := evict cfg (clock now1) (duplicate_mgr a) ++ [(T, clock now1)]).
  set (row := plate_data now1 "Manual" (T, conf, name)).
  pose proof (persist_keeps now1 row (with_detected a detected)) as (_ & _ & K).
  assert (Hfail : fails now1 DbConnect = true ->
            disk (snd (persist now1 row (with_detected a detected))) = disk a).
  { intros F. unfold persist, save_detection, try_except, bind, attempt, call, ret.
    rewrite F. reflexivity. }
  destruct (persist now1 row (with_detected a detected)) as [saved a1].
  cbn [snd] in *.
  rewrite (Window.unexpired_is_duplicate cfg (clock now2) (duplicate_mgr a1)
             T (clock now1)).
  - cbn [snd with_detected disk]. split; [ reflexivity | exact Hfail ].
  - rewrite K. cbn [with_detected duplicate_mgr]. unfold detected.
    apply in_or_app. right. now left.
  - exact Hfresh.
Qed.

(** On AB1234: the database is down at noon, and the key is pressed again
    three seconds later. *)
Lemma failed_save_blocks_retry_witness :
  extract_text config (ocr (plate_of RetrySpec.good_text))
  = Returns ("AB1234"%string, PyFloat 0.9, "Adaptive"%string) /\
  "AB1234"%string <> EmptyString /\
  fst (is_duplicate config (clock RetrySpec.noon_db_down) "AB1234"
         (duplicate_mgr started)) = false /\
  expired config (clock RetrySpec.three_seconds_later)
          (clock RetrySpec.noon_db_down) = false /\
  let a1 := snd (manual_save config RetrySpec.noon_db_down
                   [plate_of RetrySpec.good_text] started) in
  let a2 := snd (manual_save config RetrySpec.three_seconds_later
                   [plate_of RetrySpec.good_text] a1) in
  disk a2 = disk a1 /\
  (fails RetrySpec.noon_db_down DbConnect = true -> disk a2 = disk started).
Proof.
  split; [ reflexivity | ].
  split; [ discriminate | ].
  split; [ reflexivity | ].
  split; [ reflexivity | ].
  apply (failed_save_blocks_retry config RetrySpec.noon_db_down
           RetrySpec.three_seconds_later (plate_of RetrySpec.good_text) []
           started "AB1234" (PyFloat 0.9) "Adaptive").
  - reflexivity.
  - discriminate.
  - reflexivity.
  - reflexivity.
Defined.

End Persisted.

(** ** A session of saves *)

Module Ledger.

Import DataManager PersistenceSpec LedgerSpec.

(** [save_detection] in closed form. *)
Lemma save_detection_run (fails : faults) (row : plate_row) (st : storage) :
  save_detection fails row st =
  (Returns (all_ok fails),
   {| plates := if db_ok fails then plates st ++ [row] else plates st;
      csv_file := if all_ok fails then append_line (csv_file st) (export row)
                  else csv_file st |}).
Proof.
  unfold save_detection, try_except, bind, attempt, call, commit, to_csv, ret,
    all_ok, db_ok, append_line, export.
  destruct st as [rows file].
  destruct (fails DbConnect), (fails DbInsert), (fails DbCommit),
    (fails DbClose), (fails CsvWrite); reflexivity.
Qed.

Lemma all_ok_spec (fails : faults) :
  all_ok fails = true <->
  forall o, In o [DbConnect; DbInsert; DbCommit; DbClose; CsvWrite] ->
            fails o = false.
Proof.
  unfold all_ok, db_ok. rewrite !andb_true_iff, !negb_true_iff. split.
  - intros ((((H1 & H2) & H3) & H4) & H5) o Ho. cbn in Ho.
    repeat (destruct Ho as [ <- | Ho ]; [ assumption | ]). destruct Ho.
  - intros H. repeat split; apply H; cbn; tauto.
Qed.

Lemma db_ok_spec (fails : faults) :
  db_ok fails = true <->
  fails DbConnect = false /\ fails DbInsert = false /\ fails DbCommit = false.
Proof.
  unfold db_ok. rewrite !andb_true_iff, !negb_true_iff. tauto.
Qed.

Lemma all_ok_db_ok (fails : faults) : all_ok fails = true -> db_ok fails = true.
Proof. unfold all_ok. rewrite !andb_true_iff. tauto. Qed.

(** X14: [save_detection] never raises and never removes anything. It returns
    True exactly when none of its five steps fails, and then the row is at the
    end of the table and its line at the end of the export file, below a header
    if the file is new. The row is committed exactly when connecting, inserting
    and committing work, whatever happens afterwards; the export file changes
    only when True is returned. *)
Theorem save_detection_outcomes (fails : faults) (row : plate_row)
    (st : storage) :
  exists saved st',
    save_detection fails row st = (Returns saved, st') /\
    (saved = true <->
     forall o, In o [DbConnect; DbInsert; DbCommit; DbClose; CsvWrite] ->
               fails o = false) /\
    (plates st' = plates st ++ [row] \/ plates st' = plates st) /\
    (plates st' = plates st ++ [row] <->
     fails DbConnect = false /\ fails DbInsert = false /\
     fails DbCommit = false) /\
    (saved = true ->
     plates st' = plates st ++ [row] /\
     csv_file st' = append_line (csv_file st) (export row)) /\
    (saved = false -> csv_file st' = csv_file st).
Proof.
  rewrite save_detection_run. eexists. eexists. split; [ reflexivity | ].
  cbn [plates csv_file].
  assert (Hgrow : plates st ++ [row] <> plates st).
  { intros E. apply (f_equal (@List.length _)) in E.
    rewrite length_app in E. cbn in E. lia. }
  split; [ apply all_ok_spec | ].
  rewrite <- db_ok_spec.
  split; [ destruct (db_ok fails); auto | ].
  split; [ destruct (db_ok fails); split; congruence | ].
  split.
  - intros H. rewrite H, (all_ok_db_ok fails H). auto.
  - intros H. now rewrite H.
Qed.

Lemma save_all_snoc (attempts : list (faults * plate_row))
    (x : faults * plate_row) (st : storage) :
  save_all (attempts ++ [x]) st
  = snd (save_detection (fst x) (snd x) (save_all attempts st)).
Proof. unfold save_all. now rewrite fold_left_app. Qed.

(** X15: A session that starts on an empty disk. The table holds, in order, the
    rows of the saves whose insert was committed; the export file holds a
    header and, in order, the lines of the saves that returned True, and does
    not exist before the first of them. So the header is written once, and
    every exported line is the line of a committed row. *)
Theorem session_ledger (attempts : list (faults * plate_row)) :
  let st := save_all attempts empty_storage in
  plates st = map snd (filter (fun x => db_ok (fst x)) attempts) /\
  csv_file st
  = file_of (map (fun x => export (snd x))
                 (filter (fun x => all_ok (fst x)) attempts)) /\
  incl (filter (fun x => all_ok (fst x)) attempts)
       (filter (fun x => db_ok (fst x)) attempts).
Proof.
  cbv zeta. split; [ | split ].
  - induction attempts as [ | [fails row] attempts IH ] using rev_ind;
      [ reflexivity | ].
    rewrite save_all_snoc, save_detection_run. cbn [snd fst plates].
    rewrite filter_app, map_app, IH. cbn [filter fst].
    destruct (db_ok fails); cbn; [ reflexivity | now rewrite app_nil_r ].
  - induction attempts as [ | [fails row] attempts IH ] using rev_ind;
      [ reflexivity | ].
    rewrite save_all_snoc, save_detection_run. cbn [snd fst csv_file].
    rewrite filter_app, map_app, IH. cbn [filter fst].
    destruct (all_ok fails); cbn [map snd]; [ | now rewrite app_nil_r ].
    destruct (map (fun x => export (snd x))
                  (filter (fun x => all_ok (fst x)) attempts)); reflexivity.
  - intros x Hx. apply filter_In in Hx. apply filter_In.
    split; [ tauto | apply all_ok_db_ok; tauto ].
Qed.

Lemma existsb_eqb_In (text : string) (l : list string) :
  existsb (String.eqb text) l = true <-> In text l.
Proof.
  rewrite existsb_exists. split.
  - intros (y & Hy & E). apply String.eqb_eq in E. now subst.
  - intros H. exists text. split; [ exact H | apply String.eqb_refl ].
Qed.

(** One more distinct value at the end of a list, or one seen before. *)
Lemma nodup_snoc_length (l : list string) (x : string) :
  List.length (nodup string_dec (l ++ [x]))
  = if existsb (String.eqb x) l
    then List.length (nodup string_dec l)
    else S (List.length (nodup string_dec l)).
Proof.
  induction l as [ | a l IH ]; [ reflexivity | ].
  cbn [app nodup existsb].
  destruct (in_dec string_dec a (l ++ [x])) as [Hin | Hout];
    destruct (in_dec string_dec a l) as [Hin' | Hout'].
  - rewrite IH. destruct (String.eqb_spec x a) as [-> | _]; cbn [orb].
    + assert (E : existsb (String.eqb a) l = true) by now apply existsb_eqb_In.
      now rewrite E.
    + reflexivity.
  - apply in_app_or in Hin. destruct Hin as [Hin | [ <- | [] ]]; [ tauto | ].
    rewrite String.eqb_refl. cbn [orb]. rewrite IH.
    assert (E : existsb (String.eqb x) l = false).
    { destruct (existsb (String.eqb x) l) eqn:E; [ | reflexivity ].
      apply existsb_eqb_In in E. tauto. }
    now rewrite E.
  - exfalso. apply Hout. apply in_or_app. now left.
  - cbn [List.length]. rewrite IH.
    destruct (String.eqb_spec x a) as [-> | _]; cbn [orb].
    + exfalso. apply Hout. apply in_or_app. right. now left.
    + now destruct (existsb (String.eqb x) l).
Qed.

Lemma nodup_length_le (l : list string) :
  List.length (nodup string_dec l) <= List.length l.
Proof.
  induction l as [ | a l IH ]; cbn [nodup List.length]; [ lia | ].
  destruct (in_dec string_dec a l); cbn [List.length]; lia.
Qed.

Lemma nodup_nil (l : list string) : nodup string_dec l = [] -> l = [].
Proof.
  induction l as [ | a l IH ]; [ reflexivity | ]. cbn [nodup].
  destruct (in_dec string_dec a l) as [Hin | ]; [ | discriminate ].
  intros E. rewrite (IH E) in Hin. destruct Hin.
Qed.

(** X16: A save that returns True shows in the next statistics: for a row dated
    today the total is one more, and the count of distinct plates is one more
    exactly when that plate text had no row of today yet. *)
Theorem saved_row_is_counted (db : engine) (fails : faults) (today : string)
    (row : plate_row) (st : storage) :
  (forall o, In o [DbConnect; DbInsert; DbCommit; DbClose; CsvWrite] ->
             fails o = false) ->
  dated db today row = true ->
  let rows := filter (dated db today) (plates st) in
  exists st' avg,
    save_detection fails row st = (Returns true, st') /\
    get_statistics db no_faults today st'
    = (Returns
         (PyInt (count_rows rows + 1),
          PyInt (count_distinct rows
                 + (if seen_today (plate_number row) rows then 0 else 1)),
          avg),
       st').
Proof.
  intros Hok Htoday. cbv zeta. apply all_ok_spec in Hok.
  rewrite save_detection_run, Hok, (all_ok_db_ok fails Hok).
  eexists. eexists. split; [ reflexivity | ].
  rewrite Persistence.get_statistics_no_fault by reflexivity.
  cbv zeta. cbn [plates]. rewrite filter_app. cbn [filter]. rewrite Htoday.
  unfold count_rows, count_distinct, seen_today.
  rewrite length_app, map_app. cbn [map List.length].
  rewrite nodup_snoc_length.
  destruct (existsb (String.eqb (plate_number row))
              (map plate_number (filter (dated db today) (plates st))));
    repeat f_equal; lia.
Qed.

(** On the example store: a fourth detection, of a plate not seen that day. *)
Lemma saved_row_is_counted_witness :
  (forall o, In o [DbConnect; DbInsert; DbCommit; DbClose; CsvWrite] ->
             no_faults o = false) /\
  dated reference_engine "2026-03-14"
        (row_at "2026-03-14 09:30:00" "CD5678" 0.5) = true /\
  let rows := filter (dated reference_engine "2026-03-14") (plates three_rows) in
  exists st' avg,
    save_detection no_faults (row_at "2026-03-14 09:30:00" "CD5678" 0.5)
                   three_rows = (Returns true, st') /\
    get_statistics reference_engine no_faults "2026-03-14" st'
    = (Returns
         (PyInt (count_rows rows + 1),
          PyInt (count_distinct rows
                 + (if seen_today "CD5678" rows then 0 else 1)),
          avg),
       st').
Proof.
  split; [ reflexivity | ].
  split; [ reflexivity | ].
  apply (saved_row_is_counted reference_engine no_faults "2026-03-14"
           (row_at "2026-03-14 09:30:00" "CD5678" 0.5) three_rows);
    reflexivity.
Defined.

(** X17: Whatever fails, [get_statistics] returns two ints: the count of
    distinct plates is between 0 and the total, it is 0 only when the total is,
    and the total is at most the number of rows of the table. *)
Theorem statistics_bounds (db : engine) (fails : faults) (today : string)
    (st : storage) :
  exists total unique avg,
    get_statistics db fails today st
    = (Returns (PyInt total, PyInt unique, avg), st) /\
    (0 <= unique <= total)%Z /\
    (unique = 0 <-> total = 0)%Z /\
    (total <= Z.of_nat (List.length (plates st)))%Z.
Proof.
  assert (Hzero : exists total unique avg,
            (Returns (PyInt 0, PyInt 0, PyInt 0), st)
            = (Returns (PyInt total, PyInt unique, avg), st) /\
            (0 <= unique <= total)%Z /\ (unique = 0 <-> total = 0)%Z /\
            (total <= Z.of_nat (List.length (plates st)))%Z).
  { exists 0%Z, 0%Z, (PyInt 0). repeat split; lia. }
  unfold get_statistics, try_except, bind, attempt, call, select_today, ret.
  destruct (fails DbConnect); [ exact Hzero | ].
  destruct (fails (DbSelect 1)); [ exact Hzero | ].
  destruct (fails (DbSelect 2)); [ exact Hzero | ].
  destruct (fails (DbSelect 3)); [ exact Hzero | ].
  destruct (fails DbClose); [ exact Hzero | ].
  eexists. eexists. eexists. split; [ reflexivity | ].
  unfold count_rows, count_distinct.
  set (rows := filter (dated db today) (plates st)).
  pose proof (nodup_length_le (map plate_number rows)) as Hle.
  rewrite length_map in Hle.
  pose proof (filter_length_le (dated db today) (plates st)) as Hfilter.
  fold rows in Hfilter.
  split; [ lia | ]. split; [ | lia ]. split.
  - intros E.
    destruct (nodup string_dec (map plate_number rows)) eqn:N;
      [ | cbn [List.length] in E; lia ].
    apply nodup_nil in N. destruct rows; [ reflexivity | discriminate ].
  - intros E. destruct rows; [ reflexivity | cbn [List.length] in E; lia ].
Qed.

End Ledger.

(** ** Start-up checks and the frame counter *)

Module StartupChecks.

Import Startup StartupSpec.

Lemma report_length (cond : bool) (message : string) (errors : list string) :
  List.length (report cond message errors)
  = List.length errors + (if cond then 1 else 0).
Proof.
  unfold report. destruct cond; [ | lia ]. rewrite length_app. reflexivity.
Qed.

Lemma validate_config_count (path_exists : string -> bool) (s : Settings)
    (cfg : Config) :
  List.length (validate_config path_exists s cfg)
  = List.length (filter (fun failed => failed) (failed_checks path_exists s cfg)).
Proof.
  unfold validate_config, failed_checks. cbv zeta. rewrite !report_length.
  cbn [filter List.length].
  destruct (negb (path_exists (TESSERACT_PATH s))),
    (negb (path_exists (CASCADE_PATH s))),
    (negb (in_unit_range (CONFIDENCE_THRESHOLD s))),
    (negb (in_unit_range (AUTO_SAVE_THRESHOLD cfg))),
    (FRAME_SKIP s <? 1)%Z; reflexivity.
Qed.

Lemma validate_config_passes (path_exists : string -> bool) (s : Settings)
    (cfg : Config) :
  validate_config path_exists s cfg = [] <->
  path_exists (TESSERACT_PATH s) = true /\
  path_exists (CASCADE_PATH s) = true /\
  in_unit_range (CONFIDENCE_THRESHOLD s) = true /\
  in_unit_range (AUTO_SAVE_THRESHOLD cfg) = true /\
  (1 <= FRAME_SKIP s)%Z.
Proof.
  rewrite <- length_zero_iff_nil, validate_config_count.
  unfold failed_checks. rewrite <- Z.ltb_ge.
  destruct (path_exists (TESSERACT_PATH s)),
    (path_exists (CASCADE_PATH s)),
    (in_unit_range (CONFIDENCE_THRESHOLD s)),
    (in_unit_range (AUTO_SAVE_THRESHOLD cfg)),
    (FRAME_SKIP s <? 1)%Z; cbn; split; intros H; try discriminate;
    repeat split; try tauto; try reflexivity;
    destruct H as (? & ? & ? & ? & ?); discriminate.
Qed.

(** A threshold within the unit range is a number. *)
Lemma in_unit_range_number (x : float) :
  in_unit_range x = true -> is_number x = true.
Proof.
  unfold in_unit_range. rewrite andb_true_iff. intros [H _].
  apply FloatOrder.is_number_spec. unfold FloatRank.numeric. intros E.
  rewrite FloatAxioms.leb_spec, E in H. unfold SFleb, SFcompare in H.
  destruct (Prim2SF 0); discriminate.
Qed.

(** Among messages that differ from one another, a message is selected
    exactly when its own flag is set. *)
Lemma selected_In (failed : list bool) (msgs : list string) :
  NoDup msgs -> List.length failed = List.length msgs ->
  forall i message,
    nth_error msgs i = Some message ->
    (In message (selected failed msgs) <-> nth_error failed i = Some true).
Proof.
  revert msgs. induction failed as [ | b failed IH ]; intros [ | m msgs ] Hnd Hlen;
    try discriminate Hlen; intros i message Hi.
  - destruct i; discriminate Hi.
  - assert (Hsub : forall x, In x (selected failed msgs) -> In x msgs).
    { clear. revert msgs. induction failed as [ | [] failed IH ];
        intros [ | m msgs ] x Hx; cbn in Hx; try contradiction.
      - destruct Hx as [ <- | Hx ]; [ now left | right; now apply IH ].
      - right. now apply IH. }
    inversion Hnd as [ | ? ? Hnotin Hnd' ]; subst.
    injection Hlen as Hlen.
    destruct i as [ | i ]; cbn [nth_error] in *.
    + injection Hi as <-. destruct b; cbn [selected].
      * split; [ reflexivity | now left ].
      * split; [ intros H; apply Hsub in H; contradiction | discriminate ].
    + rewrite <- (IH msgs Hnd' Hlen i message Hi).
      assert (Hne : m <> message).
      { intros ->. apply Hnotin. eapply nth_error_In. exact Hi. }
      destruct b; cbn [selected In]; tauto.
Qed.

(** The errors are the messages of the failed checks, in the order of the
    checks. *)
Lemma validate_config_selected (path_exists : string -> bool) (s : Settings)
    (cfg : Config) :
  validate_config path_exists s cfg
  = selected (failed_checks path_exists s cfg) (messages s).
Proof.
  unfold validate_config, failed_checks, messages, report. cbv zeta.
  destruct (negb (path_exists (TESSERACT_PATH s))),
    (negb (path_exists (CASCADE_PATH s))),
    (negb (in_unit_range (CONFIDENCE_THRESHOLD s))),
    (negb (in_unit_range (AUTO_SAVE_THRESHOLD cfg))),
    (FRAME_SKIP s <? 1)%Z; reflexivity.
Qed.

(** The five messages differ from one another, whatever the two paths. *)
Lemma messages_NoDup (s : Settings) : NoDup (messages s).
Proof.
  unfold messages.
  repeat (constructor;
          [ cbn [In append]; intros H;
            repeat match goal with
                   | H : _ \/ _ |- _ => destruct H as [H | H]
                   end; try discriminate H; exact H | ]).
  constructor.
Qed.

(** X1: [validate_config] returns the messages of the failed checks, one per
    failed check and in the order of the five checks: the message of a check
    is among the errors exactly when that check failed, and it stands before
    the messages of the later checks. It reports none exactly when both files
    exist, both thresholds lie within [0, 1] and [FRAME_SKIP] is at least 1;
    a threshold that is NaN is reported. *)
Theorem validate_config_errors (path_exists : string -> bool) (s : Settings)
    (cfg : Config) :
  validate_config path_exists s cfg
  = selected (failed_checks path_exists s cfg) (messages s) /\
  (forall i message,
      nth_error (messages s) i = Some message ->
      (In message (validate_config path_exists s cfg) <->
       nth_error (failed_checks path_exists s cfg) i = Some true)) /\
  List.length (validate_config path_exists s cfg)
  = List.length (filter (fun failed => failed) (failed_checks path_exists s cfg)) /\
  (validate_config path_exists s cfg = [] <->
   path_exists (TESSERACT_PATH s) = true /\
   path_exists (CASCADE_PATH s) = true /\
   in_unit_range (CONFIDENCE_THRESHOLD s) = true /\
   in_unit_range (AUTO_SAVE_THRESHOLD cfg) = true /\
   (1 <= FRAME_SKIP s)%Z) /\
  (validate_config path_exists s cfg = [] ->
   is_number (CONFIDENCE_THRESHOLD s) = true /\
   is_number (AUTO_SAVE_THRESHOLD cfg) = true).
Proof.
  split; [ apply validate_config_selected | ].
  split; [ | split; [ apply validate_config_count | ] ].
  - intros i message Hi. rewrite validate_config_selected.
    apply selected_In; [ apply messages_NoDup | reflexivity | exact Hi ].
  - split; [ apply validate_config_passes | ].
    intros H. apply validate_config_passes in H.
    split; apply in_unit_range_number; tauto.
Qed.

(** X2: Once [validate_config] reported no error, the frame counter's remainder
    never raises: the frame numbered [n] is processed exactly when [FRAME_SKIP]
    divides [n], so the frames before frame [FRAME_SKIP] are skipped and that
    frame is the first one processed. *)
Theorem frame_skip_after_validation (path_exists : string -> bool)
    (s : Settings) (cfg : Config) :
  validate_config path_exists s cfg = [] ->
  (forall n, skips_frame s n = Returns (negb (n mod FRAME_SKIP s =? 0)%Z)) /\
  (forall n, (1 <= n < FRAME_SKIP s)%Z -> skips_frame s n = Returns true) /\
  skips_frame s (FRAME_SKIP s) = Returns false.
Proof.
  intros H. apply validate_config_passes in H.
  destruct H as (_ & _ & _ & _ & Hskip).
  assert (Hrun : forall n,
            skips_frame s n = Returns (negb (n mod FRAME_SKIP s =? 0)%Z)).
  { intros n. unfold skips_frame, py_mod.
    destruct (Z.eqb_spec (FRAME_SKIP s) 0); [ lia | reflexivity ]. }
  split; [ exact Hrun | split ].
  - intros n Hn. rewrite Hrun, Z.mod_small by lia.
    destruct (Z.eqb_spec n 0); [ lia | reflexivity ].
  - rewrite Hrun, Z.mod_same by lia. reflexivity.
Qed.

(** With every third frame processed, and every file present. *)
Lemma frame_skip_after_validation_witness :
  validate_config all_present every_third config = [] /\
  (forall n, skips_frame every_third n
             = Returns (negb (n mod FRAME_SKIP every_third =? 0)%Z)) /\
  (forall n, (1 <= n < FRAME_SKIP every_third)%Z ->
             skips_frame every_third n = Returns true) /\
  skips_frame every_third (FRAME_SKIP every_third) = Returns false.
Proof.
  split; [ reflexivity | ].
  apply (frame_skip_after_validation all_present every_third config).
  reflexivity.
Defined.

(** With a [FRAME_SKIP] of 0, which [validate_config] reports, the frame
    counter's remainder raises on the first frame. *)
Example frame_skip_zero (s : Settings) (n : Z) :
  FRAME_SKIP s = 0%Z -> skips_frame s n = Raises.
Proof. intros E. unfold skips_frame, py_mod. now rewrite E. Qed.

End StartupChecks.

(** ** The tokens of one OCR call *)

Module Tokens.

Import SmartOCR TokenSpec.

Lemma scan_tokens_counts (data : list token) (text : string) (confs : list Z) :
  scan_tokens (filter counts data) text confs = scan_tokens data text confs.
Proof.
  revert text confs. induction data as [ | [word [n | ]] data IH ];
    intros text confs; cbn [filter counts snd scan_tokens py_int].
  - reflexivity.
  - destruct (0 <? n)%Z eqn:E; cbn [scan_tokens py_int]; rewrite ?E; apply IH.
  - reflexivity.
Qed.

Lemma scan_tokens_raises (data : list token) (text : string) (confs : list Z) :
  scan_tokens data text confs = Raises <->
  exists word, In (word, Malformed) data.
Proof.
  revert text confs. induction data as [ | [word [n | ]] data IH ];
    intros text confs; cbn [scan_tokens py_int].
  - split; [ discriminate | intros (? & []) ].
  - destruct (0 <? n)%Z; rewrite IH; split.
    all: try (intros (w' & H); exists w'; now right).
    all: intros (w' & [H | H]); [ discriminate | now exists w' ].
  - split; [ intros _; exists word; now left | reflexivity ].
Qed.

(** X5: Tokens whose confidence is zero or negative, such as the -1 of a token
    that is no text, change nothing of what a configuration contributes,
    wherever they stand; and a configuration contributes by raising exactly
    when the confidence of one of its tokens cannot be read as an int. *)
Theorem read_data_tokens (cfg : Config) (name : string) (data : list token) :
  read_data cfg name (filter counts data) = read_data cfg name data /\
  (read_data cfg name data = Raises <-> exists word, In (word, Malformed) data).
Proof.
  unfold read_data. rewrite scan_tokens_counts. split; [ reflexivity | ].
  rewrite <- (scan_tokens_raises data EmptyString []).
  destruct (scan_tokens data EmptyString []) as [[text confs] | ];
    [ | tauto ].
  destruct (long_enough cfg (clean text)); split; discriminate.
Qed.

End Tokens.

(** ** Initialising the database *)

Module DatabaseInit.

Import DataManager Database DatabaseSpec.

Lemma init_database_run (fails : step -> bool) (db : database) :
  init_database fails db =
  (Returns (all_steps fails),
   {| plates_table := if reaches_plates fails
                      then if_not_exists (plates_table db)
                      else plates_table db;
      statistics_table := if reaches_statistics fails
                          then if_not_exists (statistics_table db)
                          else statistics_table db |}).
Proof.
  unfold init_database, try_except, bind, attempt, call, create_plates,
    create_statistics, ret, all_steps, reaches_statistics, reaches_plates.
  destruct db as [p s].
  destruct (fails MakeDirectories), (fails Connect), (fails CreatePlates),
    (fails CreateStatistics), (fails Commit), (fails Close); reflexivity.
Qed.

Lemma all_steps_spec (fails : step -> bool) :
  all_steps fails = true <->
  forall o, In o [MakeDirectories; Connect; CreatePlates; CreateStatistics;
                  Commit; Close] -> fails o = false.
Proof.
  unfold all_steps, reaches_statistics, reaches_plates.
  rewrite !andb_true_iff, !negb_true_iff. split.
  - intros (((((H1 & H2) & H3) & H4) & H5) & H6) o Ho. cbn in Ho.
    repeat (destruct Ho as [ <- | Ho ]; [ assumption | ]). destruct Ho.
  - intros H. repeat split; apply H; cbn; tauto.
Qed.

Lemma if_not_exists_kept {A : Type} (table : option (list A)) :
  kept table (if_not_exists table) /\ if_not_exists table <> None /\
  if_not_exists (if_not_exists table) = if_not_exists table.
Proof.
  unfold kept. destruct table; cbn; repeat split; congruence.
Qed.

(** X3: [init_database] never raises and never drops a table or a row: a table
    that exists keeps its rows, whichever step fails. It returns True exactly
    when no step fails, and then both tables exist. Run again on what a
    successful run left, it changes nothing, whatever fails then. *)
Theorem init_database_keeps_rows (fails : step -> bool) (db : database) :
  exists ok db',
    init_database fails db = (Returns ok, db') /\
    kept (plates_table db) (plates_table db') /\
    kept (statistics_table db) (statistics_table db') /\
    (ok = true <->
     forall o, In o [MakeDirectories; Connect; CreatePlates; CreateStatistics;
                     Commit; Close] -> fails o = false) /\
    (ok = true ->
     plates_table db' <> None /\ statistics_table db' <> None /\
     forall again, snd (init_database again db') = db').
Proof.
  rewrite init_database_run. eexists. eexists. split; [ reflexivity | ].
  cbn [plates_table statistics_table].
  destruct (if_not_exists_kept (plates_table db)) as (Kp & Np & Ip).
  destruct (if_not_exists_kept (statistics_table db)) as (Ks & Ns & Is).
  split; [ destruct (reaches_plates fails); [ exact Kp | now intros r ] | ].
  split; [ destruct (reaches_statistics fails); [ exact Ks | now intros r ] | ].
  split; [ apply all_steps_spec | ].
  intros Hok.
  assert (Hs : reaches_statistics fails = true).
  { unfold all_steps in Hok. rewrite !andb_true_iff in Hok. tauto. }
  assert (Hp : reaches_plates fails = true).
  { unfold reaches_statistics in Hs. rewrite andb_true_iff in Hs. tauto. }
  rewrite Hp, Hs. split; [ exact Np | split; [ exact Ns | ] ].
  intros again. rewrite init_database_run.
  cbn [snd plates_table statistics_table]. rewrite Ip, Is.
  now destruct (reaches_plates again), (reaches_statistics again).
Qed.

End DatabaseInit.

(** ** The window of the frame rate *)

Module FrameWindow.

Import PerformanceMonitor FrameTimesSpec.

(** X12: The rate forgets what is older than the window: once at least [maxlen]
    durations came after them, the earlier durations have no effect on the
    monitor, nor on the rate it reports. *)
Theorem rate_forgets (cfg : Config) (older recent : list float) :
  PERFORMANCE_BUFFER_SIZE cfg <= List.length recent ->
  record_all cfg (older ++ recent) = record_all cfg recent /\
  get_fps (record_all cfg (older ++ recent)) = get_fps (record_all cfg recent).
Proof.
  intros Hlen.
  assert (E : record_all cfg (older ++ recent) = record_all cfg recent).
  { destruct (FrameTimes.record_all_items cfg (older ++ recent)) as [M1 I1].
    destruct (FrameTimes.record_all_items cfg recent) as [M2 I2].
    destruct (record_all cfg (older ++ recent)) as [m1 i1].
    destruct (record_all cfg recent) as [m2 i2].
    cbn [maxlen items] in *. subst m1 m2 i1 i2. f_equal.
    rewrite length_app, skipn_app.
    rewrite skipn_all2 by lia. cbn [app]. f_equal. lia. }
  split; [ exact E | now rewrite E ].
Qed.

(** With capacity 3: a long frame followed by three short ones. *)
Lemma rate_forgets_witness :
  PERFORMANCE_BUFFER_SIZE (with_buffer_size 3 config)
  <= List.length [0.1; 0.1; 0.2]%float /\
  record_all (with_buffer_size 3 config) ([0.5] ++ [0.1; 0.1; 0.2])%float
  = record_all (with_buffer_size 3 config) [0.1; 0.1; 0.2]%float /\
  get_fps (record_all (with_buffer_size 3 config) ([0.5] ++ [0.1; 0.1; 0.2])%float)
  = get_fps (record_all (with_buffer_size 3 config) [0.1; 0.1; 0.2]%float).
Proof.
  split; [ cbn; lia | ].
  apply (rate_forgets (with_buffer_size 3 config) [0.5]%float
           [0.1; 0.1; 0.2]%float).
  cbn. lia.
Defined.

(** X13: A monitor of capacity 0 never holds a sample, and its rate is 0. *)
Theorem no_capacity_no_rate (cfg : Config) (durations : list float) :
  PERFORMANCE_BUFFER_SIZE cfg = 0 ->
  items (record_all cfg durations) = [] /\
  get_fps (record_all cfg durations) = Returns (PyInt 0).
Proof.
  intros Hcap.
  destruct (FrameTimes.record_all_items cfg durations) as [_ Hitems].
  assert (E : items (record_all cfg durations) = []).
  { rewrite Hitems, Hcap, Nat.sub_0_r. apply skipn_all. }
  split; [ exact E | ]. unfold get_fps. now rewrite E.
Qed.

(** With capacity 0, after two frames. *)
Lemma no_capacity_no_rate_witness :
  PERFORMANCE_BUFFER_SIZE (with_buffer_size 0 config) = 0 /\
  items (record_all (with_buffer_size 0 config) [0.1; 0.2]%float) = [] /\
  get_fps (record_all (with_buffer_size 0 config) [0.1; 0.2]%float)
  = Returns (PyInt 0).
Proof.
  split; [ reflexivity | ].
  apply (no_capacity_no_rate (with_buffer_size 0 config) [0.1; 0.2]%float).
  reflexivity.
Defined.

End FrameWindow.

(** ** The controls *)

Module Controls.

Import SmartOCR DuplicateManager DataManager Main ControlsSpec.

Lemma manual_save_returns (cfg : Config) (now : moment) (plates : list plate)
    (a : app) :
  fst (manual_save cfg now plates a) = Returns tt.
Proof.
  destruct plates as [ | first rest ]; [ reflexivity | ].
  destruct (Shape.extract_text_cases cfg (ocr first))
    as [E | (text & conf & name & E & _)];
    rewrite (Persisted.manual_save_run cfg now first rest a _ _ _ E).
  - reflexivity.
  - destruct (is_empty text); [ reflexivity | ].
    destruct (is_duplicate cfg (clock now) text (duplicate_mgr a)) as [[] d];
      [ reflexivity | ].
    unfold persist. rewrite Ledger.save_detection_run. reflexivity.
Qed.

(** X22: The controls never raise. The loop stops exactly on [q]. [a]
    negates [auto_save] and leaves [show_dashboard] alone, [d] negates
    [show_dashboard] and leaves [auto_save] alone, and neither touches the
    duplicate manager or the sinks, so pressing one of them twice restores
    the application. Only [s] and the space bar can touch the duplicate
    manager and the sinks, they leave the flags alone, and on a frame without
    plates they change nothing; any other key changes nothing. *)
Theorem controls_keys (cfg : Config) (now : moment) (key : Z)
    (plates : list plate) (a : app) :
  let a' := snd (controls cfg now key plates a) in
  (exists go, fst (controls cfg now key plates a) = Returns go /\
              (go = false <-> key = key_q)) /\
  (key = key_a ->
   auto_save a' = negb (auto_save a) /\ show_dashboard a' = show_dashboard a) /\
  (key = key_d ->
   show_dashboard a' = negb (show_dashboard a) /\ auto_save a' = auto_save a) /\
  (saves key = true -> plates = [] -> a' = a) /\
  (saves key = false ->
   duplicate_mgr a' = duplicate_mgr a /\ disk a' = disk a) /\
  (saves key = true ->
   auto_save a' = auto_save a /\ show_dashboard a' = show_dashboard a) /\
  (key <> key_a -> key <> key_d -> saves key = false -> a' = a) /\
  snd (controls cfg now key_a plates
         (snd (controls cfg now key_a plates a))) = a /\
  snd (controls cfg now key_d plates
         (snd (controls cfg now key_d plates a))) = a.
Proof.
  cbv zeta. unfold controls, saves.
  split; [ | split; [ | split; [ | split; [ | split; [ | split; [ | split; [ | split ] ] ] ] ] ] ].
  - destruct (Z.eqb_spec key key_q) as [-> | Hq];
      [ exists false; split; [ reflexivity | tauto ] | ].
    exists true. split; [ | split; [ discriminate | tauto ] ].
    destruct (key =? key_a)%Z; [ reflexivity | ].
    destruct (key =? key_d)%Z; [ reflexivity | ].
    destruct (((key =? key_s)%Z || (key =? key_space)%Z)
              && (0 <? List.length plates)); [ | reflexivity ].
    unfold bind. pose proof (manual_save_returns cfg now plates a) as H.
    destruct (manual_save cfg now plates a) as [o a']. cbn [fst] in H.
    now rewrite H.
  - intros ->. cbn. now split.
  - intros ->. cbn. now split.
  - intros Hs ->.
    destruct (Z.eqb_spec key key_q) as [-> | _]; [ discriminate | ].
    destruct (Z.eqb_spec key key_a) as [-> | _]; [ discriminate | ].
    destruct (Z.eqb_spec key key_d) as [-> | _]; [ discriminate | ].
    rewrite Hs. reflexivity.
  - intros ->. cbn [andb].
    destruct (key =? key_q)%Z; [ now split | ].
    destruct (key =? key_a)%Z; [ now split | ].
    destruct (key =? key_d)%Z; now split.
  - intros Hs.
    destruct (Z.eqb_spec key key_q) as [-> | _]; [ discriminate | ].
    destruct (Z.eqb_spec key key_a) as [-> | _]; [ discriminate | ].
    destruct (Z.eqb_spec key key_d) as [-> | _]; [ discriminate | ].
    rewrite Hs. cbn [andb].
    destruct (0 <? List.length plates); [ | now split ].
    unfold bind.
    destruct plates as [ | first rest ]; [ now split | ].
    pose proof (Persisted.manual_save_flags cfg now (first :: rest) a)
      as (K1 & K2).
    destruct (manual_save cfg now (first :: rest) a) as [[[] | ] a'];
      cbn [snd] in *; now split.
  - intros Ha Hd ->. cbn [andb].
    destruct (key =? key_q)%Z; [ reflexivity | ].
    destruct (Z.eqb_spec key key_a); [ contradiction | ].
    destruct (Z.eqb_spec key key_d); [ contradiction | reflexivity ].
  - cbn. destruct a as [auto dash dup d]. cbn. now rewrite negb_involutive.
  - cbn. destruct a as [auto dash dup d]. cbn. now rewrite negb_involutive.
Qed.

End Controls.
